(** * flytekit [clis/sdk_in_container/register.py]: the script-mode command

    A shallow embedding of [run], [_load_naive_entity] and
    [_parse_workflow_inputs], and the properties of the argument
    resolution they implement.

    Conventions of the embedding.
    - A Python [str] is a [string], one character per code point (code
      points below 256).
    - A Python exception is a value of [exn]; code that may raise returns
      an [except].
    - Everything outside the file (the type engine, the remote client, the
      module loader, the file access layer, the script hasher) is a
      collaborator: calling it appends an [event] to the trace of the run
      and its answer is given by an oracle that sees the trace so far.  A
      run that raises keeps the trace it has built: side effects already
      performed are not undone. *)

From stdpp Require Import gmap strings list fin_maps.
From Stdlib Require Import ZArith Ascii String.

Local Open Scope string_scope.
Local Open Scope Z_scope.

(** ** Python builtins used by the file *)

Module Py.

(** Arguments of a [ValueError]: the two raised by [int] keep what their
    messages are made of (the base and the offending string; the limit on
    the number of digits and the number of digits found), any other one is
    its message. *)
Inductive value_error :=
| InvalidLiteralForInt (base : Z) (s : string)
| ExceedsMaxStrDigits (max_str_digits digits : nat)
| Message (msg : string).

Inductive exn :=
| IndexError (msg : string)
| KeyError (key : string)
| ValueError (args : value_error)
| UnboundLocalError (name : string)
| FlyteValidationException (msg : string)
| CollaboratorError (descr : string).

Inductive except (A : Type) :=
| Ok (a : A)
| Raise (e : exn).
Arguments Ok {A} a.
Arguments Raise {A} e.

(** [LookupError] is the base class of [IndexError] and [KeyError]. *)
Definition is_LookupError (e : exn) : bool :=
  match e with
  | IndexError _ | KeyError _ => true
  | _ => false
  end.

(** [l[i]] for [0 <= i]. *)
Definition list_getitem {A} (l : list A) (i : nat) : except A :=
  match l !! i with
  | Some x => Ok x
  | None => Raise (IndexError "list index out of range")
  end.

(** [d[k]] on a dict with [str] keys. *)
Definition dict_getitem {V} (d : gmap string V) (k : string) : except V :=
  match d !! k with
  | Some v => Ok v
  | None => Raise (KeyError k)
  end.

(** [s[n:]] for [0 <= n]. *)
Fixpoint slice_from (n : nat) (s : string) : string :=
  match n, s with
  | O, _ => s
  | S _, EmptyString => EmptyString
  | S n', String _ s' => slice_from n' s'
  end.

(** [s.split(sep)] for a separator of one character: the parts between
    the occurrences of [sep], one more part than there are occurrences. *)
Fixpoint split (sep : ascii) (s : string) : list string :=
  match s with
  | EmptyString => [EmptyString]
  | String c s' =>
      if Ascii.eqb c sep then EmptyString :: split sep s'
      else match split sep s' with
           | [] => [String c EmptyString]
           | p :: ps => String c p :: ps
           end
  end.

(** [s.count(c)] for one character. *)
Fixpoint count (c : ascii) (s : string) : nat :=
  match s with
  | EmptyString => O
  | String c' s' => (if Ascii.eqb c' c then 1 else 0) + count c s'
  end.

(** [s.replace(old, new)] for [old] and [new] of one character each. *)
Fixpoint replace (old new : ascii) (s : string) : string :=
  match s with
  | EmptyString => EmptyString
  | String c s' => String (if Ascii.eqb c old then new else c) (replace old new s')
  end.

(** [s.rfind(c)] for one character: the last index of [c], [-1] without. *)
Fixpoint rfind_from (c : ascii) (s : string) (i : Z) (found : Z) : Z :=
  match s with
  | EmptyString => found
  | String c' s' => rfind_from c s' (i + 1) (if Ascii.eqb c' c then i else found)
  end.

Definition rfind (c : ascii) (s : string) : Z := rfind_from c s 0 (-1).

(** [s[:n]] for [0 <= n]. *)
Fixpoint slice_to (n : nat) (s : string) : string :=
  match n, s with
  | O, _ => EmptyString
  | S _, EmptyString => EmptyString
  | S n', String c s' => String c (slice_to n' s')
  end.

(** [genericpath._splitext(p, "/", None, ".")], that is [os.path.splitext]
    on POSIX: the extension starts at the last dot of the last path
    component, leading dots of that component apart. *)
Fixpoint all_dots_between (fuel : nat) (p : string) (filenameIndex dotIndex : Z) : bool :=
  match fuel with
  | O => true
  | S fuel' =>
      if filenameIndex <? dotIndex then
        if String.eqb (slice_to 1 (slice_from (Z.to_nat filenameIndex) p)) "."
        then all_dots_between fuel' p (filenameIndex + 1) dotIndex
        else false
      else true
  end.

Definition splitext (p : string) : string * string :=
  let sepIndex := rfind "/" p in
  let dotIndex := rfind "." p in
  if (sepIndex <? dotIndex)
     && negb (all_dots_between (String.length p) p (sepIndex + 1) dotIndex)
  then (slice_to (Z.to_nat dotIndex) p, slice_from (Z.to_nat dotIndex) p)
  else (p, EmptyString).

(** *** [int(s)] on a [str], base ten

    CPython first maps the string to ASCII (a white-space code point above
    126 becomes a blank; below 256 these are U+0085 and U+00A0, and no
    decimal digit lives there), then reads: blanks, an optional sign, a
    run of digits in which single underscores may separate digits, blanks,
    end of string.  The result has arbitrary precision, but the run of
    digits is refused when it is longer than [sys.get_int_max_str_digits()]
    allows: [max_str_digits] is that limit, 4300 by default, at least 640
    when set, and 0 when it is switched off or when the interpreter has
    none. *)

Definition is_space (c : ascii) : bool :=
  let n := nat_of_ascii c in
  ((9 <=? n)%nat && (n <=? 13)%nat) || (n =? 32)%nat || (n =? 133)%nat || (n =? 160)%nat.

Definition digit_value (c : ascii) : option Z :=
  let n := nat_of_ascii c in
  if (48 <=? n)%nat && (n <=? 57)%nat then Some (Z.of_nat n - 48) else None.

Definition is_underscore (c : ascii) : bool := Ascii.eqb c "_".

Fixpoint skip_spaces (s : string) : string :=
  match s with
  | String c s' => if is_space c then skip_spaces s' else s
  | EmptyString => EmptyString
  end.

(** The scan of the digits: [prev_underscore] says that the previous
    character was an underscore, [acc] is the value read so far and
    [digits] the number of digits read so far.  It stops at the first
    character that is neither a digit nor an underscore and returns the
    value, the number of digits and the rest; two underscores in a row, or
    one at the end of the run, are errors. *)
Fixpoint scan_digits (s : string) (prev_underscore : bool) (acc : Z) (digits : nat)
    : option (Z * nat * string) :=
  match s with
  | EmptyString => if prev_underscore then None else Some (acc, digits, s)
  | String c s' =>
      if is_underscore c then
        if prev_underscore then None else scan_digits s' true acc digits
      else
        match digit_value c with
        | Some d => scan_digits s' false (10 * acc + d) (S digits)
        | None => if prev_underscore then None else Some (acc, digits, s)
        end
  end.

(** The start of the reading: blanks, sign, and the scan of the digits.
    It answers the sign, the string after the sign, and the value, the
    number of digits and the rest that the scan gives; an underscore in
    front of the digits and the errors of the scan give nothing. *)
Definition read_digits (s : string) : option (Z * string * Z * nat * string) :=
  let s1 := skip_spaces s in
  let '(sign, s2) :=
    match s1 with
    | String "+" r => (1, r)
    | String "-" r => (-1, r)
    | _ => (1, s1)
    end in
  match s2 with
  | String "_" _ => None
  | _ =>
      match scan_digits s2 false 0 0 with
      | Some (n, digits, rest) => Some (sign, s2, n, digits, rest)
      | None => None
      end
  end.

(** The check of the limit, made once the digits are scanned: no value
    of 640 digits or fewer is refused, and a limit of 0 refuses none. *)
Definition exceeds_max_str_digits (max_str_digits digits : nat) : bool :=
  (640 <? digits)%nat && (0 <? max_str_digits)%nat && (max_str_digits <? digits)%nat.

(** The errors come in CPython's order: those of the scan, then the
    limit, then a literal with no digit or with something after it. *)
Definition int (max_str_digits : nat) (s : string) : except Z :=
  let invalid := Raise (ValueError (InvalidLiteralForInt 10 s)) in
  match read_digits s with
  | None => invalid
  | Some (sign, s2, n, digits, rest) =>
      if exceeds_max_str_digits max_str_digits digits then
        Raise (ValueError (ExceedsMaxStrDigits max_str_digits digits))
      else if (String.length rest =? String.length s2)%nat then invalid
      else match skip_spaces rest with
           | EmptyString => Ok (sign * n)
           | _ => invalid
           end
  end.

(** The integer literals: the strings [int] reads when no limit is set,
    with their values. *)
Definition integer_literal (s : string) : option Z :=
  match int 0 s with
  | Ok n => Some n
  | Raise _ => None
  end.

(** The number of digits [int] finds in a string. *)
Definition digit_count (s : string) : nat :=
  match read_digits s with
  | Some (_, _, _, digits, _) => digits
  | None => O
  end.

(** [c * n] for one character. *)
Fixpoint repeat_character (c : ascii) (n : nat) : string :=
  match n with
  | O => EmptyString
  | S n' => String c (repeat_character c n')
  end.

(** [range(start, stop, step)] for [0 < step]. *)
Fixpoint range_aux (fuel start stop step : nat) : list nat :=
  match fuel with
  | O => []
  | S fuel' =>
      if (start <? stop)%nat then start :: range_aux fuel' (start + step) stop step
      else []
  end.

Definition range (start stop step : nat) : list nat :=
  range_aux (stop - start) start stop step.

End Py.
Export Py.

(** ** Data model *)

(** What [TypeEngine.guess_python_type] answers: the three Python types the
    file compares against, and any other one by its name. *)
Inductive python_type :=
| PyStr
| PyInt
| PyStructuredDataset
| PyOther (name : string).

Global Instance python_type_eq_dec : EqDecision python_type.
Proof. solve_decision. Defined.

(** [flytekit.models.interface.Variable] and [TypedInterface], over the
    literal types of the type engine. *)
Record Variable_ (LiteralType : Type) := {
  type : LiteralType;
  description : string;
}.
Arguments type {LiteralType} _.
Arguments description {LiteralType} _.

Record TypedInterface (LiteralType : Type) := {
  inputs : gmap string (Variable_ LiteralType);
  outputs : gmap string (Variable_ LiteralType);
}.
Arguments inputs {LiteralType} _.
Arguments outputs {LiteralType} _.

Record WorkflowBase (LiteralType : Type) := {
  name : string;
  interface : TypedInterface LiteralType;
}.
Arguments name {LiteralType} _.
Arguments interface {LiteralType} _.

(** The click context: [args] holds the tokens click did not recognise. *)
Record Context_ := {
  args : list string;
}.

Record CreateUploadLocationResponse := {
  signed_url : string;
  native_url : string;
}.

Record StructuredDataset := {
  uri : string;
}.

(** The values an input resolves to. *)
Inductive py_value :=
| VStr (s : string)
| VInt (n : Z)
| VStructuredDataset (sd : StructuredDataset).

Definition ImageConfig := list string.

Record FastSerializationSettings := {
  enabled : bool;
  destination_dir : string;
  distribution_location : string;
}.

Record SerializationSettings := {
  image_config : option ImageConfig;
  fast_serialization_settings : option FastSerializationSettings;
}.

(** ** Collaborator calls and the monad of the embedding *)

Inductive event :=
| ImportModule (module_name : string)
| LoadObjectFromModule (object_name : string)
| PlatformConfigAuto
| NewSynchronousFlyteClient
| CreateUploadLocation (project domain : string) (suffix : option string)
| PutData (local_path remote_path : string)
| HashScriptFile (filename : string)
| ConfigAuto
| NewFlyteRemote (default_project default_domain : string)
| RegisterWorkflowScriptMode (entity : string) (settings : SerializationSettings)
    (version presigned_url : string)
| Execute (wf : string) (inputs : gmap string py_value) (project domain : string)
    (wait : bool)
| PrintOut (text : string).

Definition trace := list event.

Definition M (A : Type) : Type := trace -> except A * trace.

Definition ret {A} (a : A) : M A := fun t => (Ok a, t).

Definition bind {A B} (m : M A) (k : A -> M B) : M B :=
  fun t =>
    match m t with
    | (Ok a, t') => k a t'
    | (Raise e, t') => (Raise e, t')
    end.

Definition raise {A} (e : exn) : M A := fun t => (Raise e, t).

(** A pure computation that may raise. *)
Definition lift {A} (r : except A) : M A := fun t => (r, t).

(** A call of a collaborator: the call is logged, the oracle answers from
    the trace before the call. *)
Definition call {A} (e : event) (oracle : trace -> except A) : M A :=
  fun t => (oracle t, (t ++ [e])%list).

Declare Scope py_scope.
Delimit Scope py_scope with py.
Notation "'let*' x ':=' m 'in' k" := (bind m (fun x => k))
  (at level 10, x name, m at level 100, k at level 200) : py_scope.

(** [for x in l: s = body(s, x)] *)
Fixpoint for_each {A S} (l : list A) (body : S -> A -> M S) (s : S) : M S :=
  match l with
  | [] => ret s
  | x :: l' => bind (body s x) (for_each l' body)
  end.

(** The collaborators, each an oracle over the trace so far, and the state
    of the interpreter the file reads: [int_max_str_digits] is what
    [sys.get_int_max_str_digits()] would answer at that point of the run
    (0 where the interpreter has no such limit). *)
Class Collaborators (LiteralType : Type) := {
  int_max_str_digits : trace -> nat;
  guess_python_type : LiteralType -> except python_type;
  import_module : trace -> string -> except unit;
  load_object_from_module : trace -> string -> except (WorkflowBase LiteralType);
  platform_config_auto : trace -> except unit;
  new_synchronous_flyte_client : trace -> except unit;
  client_create_upload_location :
    trace -> string -> string -> option string -> except CreateUploadLocationResponse;
  put_data : trace -> string -> string -> except unit;
  hash_script_file : trace -> string -> except string;
  config_auto : trace -> except unit;
  new_flyte_remote : trace -> string -> string -> except unit;
  register_workflow_script_mode :
    trace -> string -> SerializationSettings -> string -> string -> except string;
  execute :
    trace -> string -> gmap string py_value -> string -> string -> bool -> except string;
}.

(** ** The functions of the file *)

Section Script.
Context {LiteralType : Type} `{!Collaborators LiteralType}.
Local Open Scope py_scope.

(** [int(value)], with the limit on the number of digits that the
    interpreter has at that point of the run. *)
Definition py_int (value : string) : M Z :=
  fun t => (int (int_max_str_digits t) value, t).

(** The body of the loop of [_parse_workflow_inputs], lines 145 to 162:
    [args_] is the dict built so far, [i] the loop variable. *)
Definition parse_workflow_input (click_ctx : Context_) (wf_entity : WorkflowBase LiteralType)
    (create_upload_location_fn : M CreateUploadLocationResponse)
    (args_ : gmap string py_value) (i : nat) : M (gmap string py_value) :=
  let* flag := lift (list_getitem (args click_ctx) i) in
  let argument := slice_from 2 flag in
  let* value := lift (list_getitem (args click_ctx) (i + 1)) in
  let* var := lift (dict_getitem (inputs (interface wf_entity)) argument) in
  let* python_type := lift (guess_python_type (type var)) in
  let* value' :=
    if decide (python_type = PyStr) then ret (VStr value)
    else if decide (python_type = PyInt) then
      let* n := py_int value in
      ret (VInt n)
    else if decide (python_type = PyStructuredDataset) then
      let* df_remote_location := create_upload_location_fn in
      let* _ := call (PutData value (signed_url df_remote_location))
                  (fun t => put_data t value (signed_url df_remote_location)) in
      ret (VStructuredDataset {| uri := native_url df_remote_location |})
    else
      raise (ValueError (Message ("Unsupported type for argument " +:+ argument))) in
  ret (<[argument := value']> args_).

Definition _parse_workflow_inputs (click_ctx : Context_) (wf_entity : WorkflowBase LiteralType)
    (create_upload_location_fn : M CreateUploadLocationResponse)
    : M (gmap string py_value) :=
  for_each (range 0 (List.length (args click_ctx)) 2)
    (parse_workflow_input click_ctx wf_entity create_upload_location_fn) ∅.

(** The ambient Flyte context entered around the import and the entry
    added to [sys.path] are scoped and restored on the way out; they are
    not collaborator calls. *)
Definition _load_naive_entity (module_name workflow_name : string)
    : M (WorkflowBase LiteralType) :=
  let* _ := call (ImportModule module_name) (fun t => import_module t module_name) in
  let object_name := module_name +:+ "." +:+ workflow_name in
  call (LoadObjectFromModule object_name) (fun t => load_object_from_module t object_name).

(** [client.create_upload_location(project=..., domain=..., suffix=...)];
    [functools.partial] of it with the project and the domain, called
    without arguments, leaves the suffix out. *)
Definition create_upload_location (project domain : string) (suffix : option string)
    : M CreateUploadLocationResponse :=
  call (CreateUploadLocation project domain suffix)
       (fun t => client_create_upload_location t project domain suffix).

Definition run (click_ctx : Context_) (file_and_workflow : string) (remote : bool)
    (project domain destination_dir : string) (image_config : ImageConfig) : M unit :=
  let split_input := split ":" file_and_workflow in
  match split_input with
  | [filename; workflow_name] =>
      let module := replace "/" "." (splitext filename).1 in
      let* wf_entity := _load_naive_entity module workflow_name in
      if remote then
        let* _ := call PlatformConfigAuto platform_config_auto in
        let* _ := call NewSynchronousFlyteClient new_synchronous_flyte_client in
        let* inputs :=
          _parse_workflow_inputs click_ctx wf_entity
            (create_upload_location "flytesnacks" "development" None) in
        let* version := call (HashScriptFile filename) (fun t => hash_script_file t filename) in
        let* upload_location :=
          create_upload_location project domain
            (Some ("scriptmode-" +:+ version +:+ ".tar.gz")) in
        let serialization_settings :=
          {| image_config := Some image_config;
             fast_serialization_settings :=
               Some {| enabled := true;
                       destination_dir := destination_dir;
                       distribution_location := native_url upload_location |} |} in
        let* _ := call ConfigAuto config_auto in
        let* _ := call (NewFlyteRemote project domain)
                    (fun t => new_flyte_remote t project domain) in
        let* wf :=
          call (RegisterWorkflowScriptMode (name wf_entity) serialization_settings
                  version (signed_url upload_location))
               (fun t => register_workflow_script_mode t (name wf_entity)
                           serialization_settings version (signed_url upload_location)) in
        let* execution := call (Execute wf inputs project domain true)
                            (fun t => execute t wf inputs project domain true) in
        call (PrintOut execution) (fun _ => Ok tt)
      else
        (* [click.secho(wf())]: [wf] is a local of [run] bound only in the
           other branch *)
        raise (UnboundLocalError "wf")
  | _ =>
      raise (FlyteValidationException
               ("Input " +:+ file_and_workflow +:+
                " must be in format '<file.py>:<worfklow>'"))
  end.

(** The end of [run], from the request for the location of the script
    archive on (lines 100 to 122), as an action of its own: the proofs about
    [run] name it, and it is convertible with that part of [run]. *)
Definition run_from_archive (wf_entity : WorkflowBase LiteralType)
    (inputs_ : gmap string py_value) (version project domain destination_dir : string)
    (image_config : ImageConfig) : M unit :=
  (let* upload_location :=
     create_upload_location project domain
       (Some ("scriptmode-" +:+ version +:+ ".tar.gz")) in
   let serialization_settings :=
     {| image_config := Some image_config;
        fast_serialization_settings :=
          Some {| enabled := true;
                  destination_dir := destination_dir;
                  distribution_location := native_url upload_location |} |} in
   let* _ := call ConfigAuto config_auto in
   let* _ := call (NewFlyteRemote project domain)
               (fun t => new_flyte_remote t project domain) in
   let* wf :=
     call (RegisterWorkflowScriptMode (name wf_entity) serialization_settings
             version (signed_url upload_location))
          (fun t => register_workflow_script_mode t (name wf_entity)
                      serialization_settings version (signed_url upload_location)) in
   let* execution := call (Execute wf inputs_ project domain true)
                       (fun t => execute t wf inputs_ project domain true) in
   call (PrintOut execution) (fun _ => Ok tt))%py.

(** *** The loop read pair by pair

    The same resolution by recursion on the tokens, two at a time; it is
    shown below to be what the loop over [range(0, len(args), 2)] computes,
    and the properties of the loop are proved through it. *)

Definition resolve_pair (wf_entity : WorkflowBase LiteralType)
    (create_upload_location_fn : M CreateUploadLocationResponse)
    (args_ : gmap string py_value) (flag value : string) : M (gmap string py_value) :=
  let argument := slice_from 2 flag in
  let* var := lift (dict_getitem (inputs (interface wf_entity)) argument) in
  let* python_type := lift (guess_python_type (type var)) in
  let* value' :=
    match python_type with
    | PyStr => ret (VStr value)
    | PyInt => let* n := py_int value in ret (VInt n)
    | PyStructuredDataset =>
        let* df_remote_location := create_upload_location_fn in
        let* _ := call (PutData value (signed_url df_remote_location))
                    (fun t => put_data t value (signed_url df_remote_location)) in
        ret (VStructuredDataset {| uri := native_url df_remote_location |})
    | PyOther _ =>
        raise (ValueError (Message ("Unsupported type for argument " +:+ argument)))
    end in
  ret (<[argument := value']> args_).

Fixpoint resolve_pairs (wf_entity : WorkflowBase LiteralType)
    (create_upload_location_fn : M CreateUploadLocationResponse)
    (tokens : list string) (args_ : gmap string py_value) : M (gmap string py_value) :=
  match tokens with
  | [] => ret args_
  | [_] => raise (IndexError "list index out of range")
  | flag :: value :: rest =>
      bind (resolve_pair wf_entity create_upload_location_fn args_ flag value)
           (resolve_pairs wf_entity create_upload_location_fn rest)
  end.

(** The pairs of a token list, a dangling last token left out. *)
Fixpoint pairs (tokens : list string) : list (string * string) :=
  match tokens with
  | flag :: value :: rest => (flag, value) :: pairs rest
  | _ => []
  end.

(** The declared type of a flag, as the type engine maps it. *)
Definition declared_type (wf_entity : WorkflowBase LiteralType) (flag : string)
    : option python_type :=
  match inputs (interface wf_entity) !! slice_from 2 flag with
  | Some var =>
      match guess_python_type (type var) with
      | Ok ty => Some ty
      | Raise _ => None
      end
  | None => None
  end.

(** The arguments of structured-dataset type, in the order of the tokens:
    name and raw value. *)
Definition structured_arguments (wf_entity : WorkflowBase LiteralType)
    (tokens : list string) : list (string * string) :=
  omap (fun '(flag, value) =>
          match declared_type wf_entity flag with
          | Some PyStructuredDataset => Some (slice_from 2 flag, value)
          | _ => None
          end) (pairs tokens).

(** The value of the last pair of [tokens] given under the name [argument]. *)
Definition last_value (argument : string) (tokens : list string) : option string :=
  snd <$> last (filter (fun p => slice_from 2 p.1 = argument) (pairs tokens)).

(** The conversion of one raw value, the other pairs left aside: text as
    it is, an integer read by [int] under the limit [max_str_digits]. *)
Definition convert (wf_entity : WorkflowBase LiteralType) (max_str_digits : nat)
    (argument value : string) : option py_value :=
  match inputs (interface wf_entity) !! argument with
  | Some var =>
      match guess_python_type (type var) with
      | Ok PyStr => Some (VStr value)
      | Ok PyInt =>
          match int max_str_digits value with
          | Ok n => Some (VInt n)
          | Raise _ => None
          end
      | _ => None
      end
  | None => None
  end.

(** The requests for an upload location in a trace. *)
Definition upload_request (e : event) : option (string * string * option string) :=
  match e with
  | CreateUploadLocation project domain suffix => Some (project, domain, suffix)
  | _ => None
  end.

Definition upload_requests (tr : trace) : list (string * string * option string) :=
  omap upload_request tr.

(** What the structured-dataset arguments leave in the trace when each call
    of the upload factory is logged as [upload_call] and the i-th one
    answers the i-th location of [locations]: a call of the factory and
    the transfer of the argument's file, argument after argument. *)
Definition upload_events (upload_call : event) (arguments : list (string * string))
    (locations : list CreateUploadLocationResponse) : trace :=
  flat_map (fun '((_, value), d) => [upload_call; PutData value (signed_url d)])
    (zip arguments locations).

(** The names given on the command line. *)
Definition provided_names (tokens : list string) : list string :=
  map (fun p => slice_from 2 p.1) (pairs tokens).

(** Every pair of [tokens] is declared with a type that maps to [str] or
    to [int]. *)
Definition text_or_integer (wf_entity : WorkflowBase LiteralType) (tokens : list string)
    : Prop :=
  Forall (fun p => declared_type wf_entity p.1 = Some PyStr
                   \/ declared_type wf_entity p.1 = Some PyInt) (pairs tokens).

(** Every value of [tokens] given for an [int] is one that [int] reads
    under the limit [max_str_digits]: an integer literal with no more
    digits than the limit allows. *)
Definition integers_readable (wf_entity : WorkflowBase LiteralType) (max_str_digits : nat)
    (tokens : list string) : Prop :=
  Forall (fun p => declared_type wf_entity p.1 = Some PyInt ->
                   is_Some (integer_literal p.2)
                   /\ exceeds_max_str_digits max_str_digits (digit_count p.2) = false)
    (pairs tokens).

End Script.

(** *** What an action adds to the trace

    [logs P m]: whatever its outcome, [m] only appends to the trace, and
    only events that satisfy [P]. *)

Definition logs {A} (P : event -> Prop) (m : M A) : Prop :=
  forall t, exists more, (m t).2 = (t ++ more)%list /\ Forall P more.

(** [starts_with P e m]: whatever its outcome, the first thing [m] does
    is to log [e], and what it logs after that satisfies [P]. *)
Definition starts_with {A} (P : event -> Prop) (e : event) (m : M A) : Prop :=
  forall t, exists tail, (m t).2 = (t ++ e :: tail)%list /\ Forall P tail.

(** The events whose request for an upload location, if they are one, is
    for the fixed project and domain without a suffix. *)
Definition fixed_location (e : event) : Prop :=
  match upload_request e with
  | Some request => request = ("flytesnacks", "development", None)
  | None => True
  end.

(** *** Notions for the further properties *)

(** [type(v)] of a resolved value. *)
Definition type_of_value (v : py_value) : python_type :=
  match v with
  | VStr _ => PyStr
  | VInt _ => PyInt
  | VStructuredDataset _ => PyStructuredDataset
  end.

(** The values of a dict have the types the interface declares. *)
Definition typed_as_declared {LiteralType : Type} `{!Collaborators LiteralType}
    (wf_entity : WorkflowBase LiteralType) (a : gmap string py_value) : Prop :=
  forall argument v,
    a !! argument = Some v ->
    exists var,
      inputs (interface wf_entity) !! argument = Some var
      /\ guess_python_type (type var) = Ok (type_of_value v).

(** The tokens of a list of pairs, flag then value. *)
Definition tokens_of (ps : list (string * string)) : list string :=
  flat_map (fun p => [p.1; p.2]) ps.

(** The number a string of decimal digits denotes, read from the left
    with [acc] the number read so far. *)
Fixpoint decimal_from (acc : Z) (s : string) : Z :=
  match s with
  | EmptyString => acc
  | String c s' => decimal_from (10 * acc + (Z.of_nat (nat_of_ascii c) - 48)) s'
  end.

Definition decimal_value (s : string) : Z := decimal_from 0 s.

Fixpoint all_digits (s : string) : bool :=
  match s with
  | EmptyString => true
  | String c s' =>
      match digit_value c with Some _ => true | None => false end && all_digits s'
  end.

(** The events of a run up to the resolution of the arguments: loading
    the module, setting up the client, and the uploads of the arguments. *)
Definition before_hashing (e : event) : Prop :=
  match e with
  | ImportModule _ | LoadObjectFromModule _ | PlatformConfigAuto
  | NewSynchronousFlyteClient | PutData _ _ => True
  | CreateUploadLocation _ _ suffix => suffix = None
  | _ => False
  end.

(** The events of loading the module. *)
Definition module_loading (e : event) : Prop :=
  match e with
  | ImportModule _ | LoadObjectFromModule _ => True
  | _ => False
  end.

(** ** A concrete setting for the examples

    A small set of literal types, a workflow with one input of each, an
    interpreter with the default limit on the digits of an integer, and
    collaborators that always answer: the n-th event of the run decides
    the name of the upload location handed out. *)

Module Fixture.

Inductive SimpleType := INTEGER | STRING | FLOAT | STRUCTURED_DATASET.

Definition var (t : SimpleType) : Variable_ SimpleType :=
  {| type := t; description := "" |}.

Definition wf : WorkflowBase SimpleType :=
  {| name := "my_workflow";
     interface :=
       {| inputs := <["count" := var INTEGER]> (<["label" := var STRING]>
                      (<["ratio" := var FLOAT]> (<["df" := var STRUCTURED_DATASET]> ∅)));
          outputs := ∅ |} |}.

Definition location (t : trace) (project domain : string) (suffix : option string)
    : CreateUploadLocationResponse :=
  let slot := String (ascii_of_nat (48 + List.length t)) EmptyString in
  {| signed_url := "https://signed/" +:+ project +:+ "/" +:+ domain +:+ "/" +:+ slot;
     native_url := "s3://bucket/" +:+ project +:+ "/" +:+ domain +:+ "/" +:+ slot |}.

#[export] Instance collaborators : Collaborators SimpleType := {|
  int_max_str_digits _ := 4300%nat;
  guess_python_type t :=
    Ok match t with
       | INTEGER => PyInt
       | STRING => PyStr
       | FLOAT => PyOther "float"
       | STRUCTURED_DATASET => PyStructuredDataset
       end;
  import_module _ _ := Ok tt;
  load_object_from_module _ _ := Ok wf;
  platform_config_auto _ := Ok tt;
  new_synchronous_flyte_client _ := Ok tt;
  client_create_upload_location t project domain suffix :=
    Ok (location t project domain suffix);
  put_data _ _ _ := Ok tt;
  hash_script_file _ _ := Ok "abc123";
  config_auto _ := Ok tt;
  new_flyte_remote _ _ _ := Ok tt;
  register_workflow_script_mode _ entity _ version _ := Ok (entity +:+ "@" +:+ version);
  execute _ wf _ _ _ _ := Ok ("execution of " +:+ wf);
|}.

Definition upload_factory : M CreateUploadLocationResponse :=
  create_upload_location "flytesnacks" "development" None.

Definition resolve (tokens : list string) : except (gmap string py_value) * trace :=
  _parse_workflow_inputs {| args := tokens |} wf upload_factory [].

End Fixture.

(** The same setting with collaborators that fail: the service hands out
    two upload locations and then refuses, and the file [missing.csv]
    cannot be transferred. *)

Module Flaky.

Definition collaborators : Collaborators Fixture.SimpleType := {|
  int_max_str_digits _ := 4300%nat;
  guess_python_type := @guess_python_type _ Fixture.collaborators;
  import_module _ _ := Ok tt;
  load_object_from_module _ _ := Ok Fixture.wf;
  platform_config_auto _ := Ok tt;
  new_synchronous_flyte_client _ := Ok tt;
  client_create_upload_location t project domain suffix :=
    if (2 <=? List.length (upload_requests t))%nat
    then Raise (CollaboratorError "quota exceeded")
    else Ok (Fixture.location t project domain suffix);
  put_data _ local_path _ :=
    if String.eqb local_path "missing.csv"
    then Raise (CollaboratorError "no such file")
    else Ok tt;
  hash_script_file _ _ := Ok "abc123";
  config_auto _ := Ok tt;
  new_flyte_remote _ _ _ := Ok tt;
  register_workflow_script_mode _ entity _ version _ := Ok (entity +:+ "@" +:+ version);
  execute _ wf _ _ _ _ := Ok ("execution of " +:+ wf);
|}.

Definition upload_factory : M CreateUploadLocationResponse :=
  @create_upload_location _ collaborators "flytesnacks" "development" None.

Definition resolve (tokens : list string) : except (gmap string py_value) * trace :=
  @_parse_workflow_inputs _ collaborators {| args := tokens |} Fixture.wf upload_factory [].

End Flaky.

(** ** Concrete runs *)

Example split_two : split ":" "script.py:my_workflow" = ["script.py"; "my_workflow"].
Proof. reflexivity. Qed.

Example split_three : split ":" "a:b:c" = ["a"; "b"; "c"].
Proof. reflexivity. Qed.

Example int_examples :
  int 4300 "42" = Ok 42 /\ int 4300 " -1_000 " = Ok (-1000) /\ int 4300 "+7" = Ok 7 /\
  int 4300 "abc" = Raise (ValueError (InvalidLiteralForInt 10 "abc")) /\
  int 4300 "" = Raise (ValueError (InvalidLiteralForInt 10 "")) /\
  integer_literal "" = None /\ integer_literal "  " = None /\
  integer_literal "1__0" = None /\
  integer_literal "_1" = None /\ integer_literal "-_1" = None /\
  integer_literal "1_" = None /\
  integer_literal "- 1" = None /\ integer_literal " + 1" = None /\
  integer_literal "+-1" = None /\
  integer_literal "0x10" = None /\ integer_literal "1.0" = None /\
  integer_literal "-" = None /\
  integer_literal "4 2" = None /\ integer_literal "007" = Some 7 /\
  integer_literal "-0" = Some 0 /\
  integer_literal "0_0" = Some 0 /\ integer_literal " 1_2_3 " = Some 123.
Proof. repeat split; reflexivity. Qed.

(** Blanks are the six of ASCII and, above it, U+0085 and U+00A0; U+001C
    and U+0000 are not. *)
Example int_blanks :
  let chr n := String (ascii_of_nat (Z.to_nat n)) EmptyString in
  integer_literal (chr 9 +:+ chr 10 +:+ chr 11 +:+ chr 12 +:+ chr 13 +:+ " 7 " +:+ chr 9)
  = Some 7
  /\ integer_literal (chr 133 +:+ "5") = Some 5
  /\ integer_literal (chr 160 +:+ "5" +:+ chr 160) = Some 5
  /\ integer_literal (chr 28 +:+ "5") = None
  /\ integer_literal ("5" +:+ chr 0) = None
  /\ integer_literal (chr 127 +:+ "1") = None
  /\ integer_literal (chr 233 +:+ "1") = None.
Proof. repeat split; reflexivity. Qed.

(** The limit counts the digits, not the underscores, the sign or the
    blanks; it is checked after the scan of the digits and before what
    follows them is looked at. *)
Example int_limit :
  let ones := repeat_character "1" in
  let limit max_str_digits digits :=
    Raise (ValueError (ExceedsMaxStrDigits max_str_digits digits)) in
  (exists n, int 4300 (ones 4300%nat) = Ok n)
  /\ int 4300 (ones 4301%nat) = limit 4300%nat 4301%nat
  /\ (exists n, int 4300 (" -" +:+ ones 4300%nat +:+ " ") = Ok n)
  /\ int 4300 (ones 5000%nat +:+ "x") = limit 4300%nat 5000%nat
  /\ int 4300 (ones 5000%nat +:+ " 1") = limit 4300%nat 5000%nat
  /\ int 4300 (repeat_character "0" 4301%nat) = limit 4300%nat 4301%nat
  /\ int 4300 ("_" +:+ ones 5000%nat)
     = Raise (ValueError (InvalidLiteralForInt 10 ("_" +:+ ones 5000%nat)))
  /\ int 4300 (ones 5000%nat +:+ "_")
     = Raise (ValueError (InvalidLiteralForInt 10 (ones 5000%nat +:+ "_")))
  /\ int 4300 ("1_" +:+ ones 4300%nat) = limit 4300%nat 4301%nat
  /\ (exists n, int 0 (ones 5000%nat) = Ok n)
  /\ (exists n, int 640 (ones 640%nat) = Ok n)
  /\ int 640 (ones 641%nat) = limit 640%nat 641%nat.
Proof.
  intros ones limit.
  repeat split; try (eexists; vm_compute; reflexivity); vm_compute; reflexivity.
Qed.

Example splitext_examples :
  splitext "dir/script.py" = ("dir/script", ".py") /\
  splitext ".bashrc" = (".bashrc", "") /\
  splitext "a.b/c" = ("a.b/c", "") /\
  splitext "x/..a.py" = ("x/..a", ".py") /\
  splitext "a/.b.c" = ("a/.b", ".c") /\
  splitext "..." = ("...", "") /\
  splitext "a." = ("a", ".") /\
  splitext "a/b.c/d.e.f" = ("a/b.c/d.e", ".f") /\
  splitext "noext" = ("noext", "").
Proof. repeat split; reflexivity. Qed.

Example split_edges :
  split ":" "" = [""] /\ split ":" ":" = [""; ""] /\ split ":" "a:" = ["a"; ""] /\
  split ":" ":b" = [""; "b"] /\ split ":" "::" = [""; ""; ""].
Proof. repeat split; reflexivity. Qed.

Example range_examples :
  range 0 5 2 = [0; 2; 4]%nat /\ range 0 4 2 = [0; 2]%nat /\ range 0 0 2 = [].
Proof. repeat split; reflexivity. Qed.

Example resolve_count :
  Fixture.resolve ["--count"; "42"] = (Ok (<["count" := VInt 42]> ∅), []).
Proof. vm_compute. reflexivity. Qed.

Example resolve_count_abc :
  Fixture.resolve ["--count"; "abc"]
  = (Raise (ValueError (InvalidLiteralForInt 10 "abc")), []).
Proof. vm_compute. reflexivity. Qed.

Example resolve_missing :
  Fixture.resolve ["--missing"; "x"] = (Raise (KeyError "missing"), []).
Proof. vm_compute. reflexivity. Qed.

Example resolve_df :
  Fixture.resolve ["--df"; "/local/data.csv"]
  = (Ok (<["df" := VStructuredDataset {| uri := "s3://bucket/flytesnacks/development/0" |}]> ∅),
     [CreateUploadLocation "flytesnacks" "development" None;
      PutData "/local/data.csv" "https://signed/flytesnacks/development/0"]).
Proof. vm_compute. reflexivity. Qed.

Example resolve_ratio :
  Fixture.resolve ["--ratio"; "0.5"]
  = (Raise (ValueError (Message "Unsupported type for argument ratio")), []).
Proof. vm_compute. reflexivity. Qed.

Example resolve_dangling :
  Fixture.resolve ["--df"; "a.csv"; "--count"]
  = (Raise (IndexError "list index out of range"),
     [CreateUploadLocation "flytesnacks" "development" None;
      PutData "a.csv" "https://signed/flytesnacks/development/0"]).
Proof. vm_compute. reflexivity. Qed.

(** ** The loop and its reading pair by pair *)

Lemma list_pair_ind {A} (P : list A -> Prop) :
  P [] -> (forall x, P [x]) -> (forall x y l, P l -> P (x :: y :: l)) ->
  forall l, P l.
Proof.
  intros Hnil Hone Hstep.
  assert (Hboth : forall l, P l /\ forall x, P (x :: l)).
  { induction l as [|y l [IHl IHl']]; split; auto. }
  intros l. apply Hboth.
Qed.

Lemma even_length_cons2 {A} (x y : A) (l : list A) :
  Nat.even (List.length (x :: y :: l)) = Nat.even (List.length l).
Proof. reflexivity. Qed.

Lemma even_length_app {A} (l1 l2 : list A) :
  Nat.even (List.length l1) = true ->
  Nat.even (List.length (l1 ++ l2)%list) = Nat.even (List.length l2).
Proof.
  induction l1 as [| |x y l1 IH] using list_pair_ind; simpl; auto.
  discriminate.
Qed.

Lemma bind_eq {A B} (m : M A) (k : A -> M B) (t : trace) :
  bind m k t =
  match m t with
  | (Ok a, t') => k a t'
  | (Raise e, t') => (Raise e, t')
  end.
Proof. reflexivity. Qed.

(** *** [int] and its limit *)

Lemma exceeds_max_str_digits_off digits : exceeds_max_str_digits 0 digits = false.
Proof.
  unfold exceeds_max_str_digits. rewrite Nat.ltb_irrefl, andb_false_r. reflexivity.
Qed.

(** What [int] answers, from the literal and the number of its digits. *)
Lemma int_cases max_str_digits s :
  int max_str_digits s
  = if exceeds_max_str_digits max_str_digits (digit_count s)
    then Raise (ValueError (ExceedsMaxStrDigits max_str_digits (digit_count s)))
    else match integer_literal s with
         | Some n => Ok n
         | None => Raise (ValueError (InvalidLiteralForInt 10 s))
         end.
Proof.
  unfold integer_literal, int, digit_count.
  destruct (read_digits s) as [[[[[sign s2] n] digits] rest]|]; [|reflexivity].
  rewrite exceeds_max_str_digits_off.
  destruct (exceeds_max_str_digits max_str_digits digits); [reflexivity|].
  destruct (String.length rest =? String.length s2)%nat; [reflexivity|].
  destruct (skip_spaces rest); reflexivity.
Qed.

Lemma int_Ok max_str_digits s n :
  int max_str_digits s = Ok n
  <-> integer_literal s = Some n
      /\ exceeds_max_str_digits max_str_digits (digit_count s) = false.
Proof.
  rewrite int_cases.
  destruct (exceeds_max_str_digits max_str_digits (digit_count s));
    destruct (integer_literal s) as [m|]; split;
    try (intros [H1 H2]); try (intros H1); try discriminate;
    try (injection H1 as <-); auto.
Qed.

Section Loop.
Context {LiteralType : Type} `{!Collaborators LiteralType}.
Variable wf_entity : WorkflowBase LiteralType.
Variable create_upload_location_fn : M CreateUploadLocationResponse.

Local Abbreviation body ctx := (parse_workflow_input ctx wf_entity create_upload_location_fn).
Local Abbreviation pair_ := (resolve_pair wf_entity create_upload_location_fn).
Local Abbreviation pairs_ := (resolve_pairs wf_entity create_upload_location_fn).

Lemma parse_workflow_input_pair ctx a i flag value t :
  args ctx !! i = Some flag -> args ctx !! (i + 1)%nat = Some value ->
  body ctx a i t = pair_ a flag value t.
Proof.
  intros Hflag Hvalue.
  unfold parse_workflow_input, resolve_pair.
  rewrite !bind_eq. unfold lift, list_getitem. rewrite Hflag. cbn [fst snd].
  rewrite bind_eq. rewrite Hvalue.
  rewrite !bind_eq.
  destruct (dict_getitem _ _) as [var|e]; [|reflexivity].
  rewrite !bind_eq.
  destruct (guess_python_type (type var)) as [ty|e]; [|reflexivity].
  rewrite !bind_eq.
  destruct ty; reflexivity.
Qed.

Lemma parse_workflow_input_dangling ctx a i flag t :
  args ctx !! i = Some flag -> args ctx !! (i + 1)%nat = None ->
  body ctx a i t = (Raise (IndexError "list index out of range"), t).
Proof.
  intros Hflag Hvalue.
  unfold parse_workflow_input.
  rewrite !bind_eq. unfold lift, list_getitem. rewrite Hflag.
  rewrite bind_eq. rewrite Hvalue. reflexivity.
Qed.

Lemma loop_from fuel : forall rest pre a t,
  (List.length rest <= fuel)%nat ->
  for_each (range_aux fuel (List.length pre) (List.length (pre ++ rest)%list) 2)
    (body {| args := (pre ++ rest)%list |}) a t
  = pairs_ rest a t.
Proof.
  induction fuel as [|fuel IH]; intros rest pre a t Hfuel.
  - destruct rest; [reflexivity | simpl in Hfuel; lia].
  - destruct rest as [|flag [|value rest]].
    + simpl. rewrite app_nil_r, Nat.ltb_irrefl. reflexivity.
    + cbn [range_aux].
      replace (List.length pre <? List.length (pre ++ [flag])%list)%nat with true
        by (symmetry; apply Nat.ltb_lt; rewrite length_app; simpl; lia).
      cbn [for_each]. rewrite bind_eq.
      rewrite (parse_workflow_input_dangling _ _ _ flag).
      * reflexivity.
      * cbn [args]. rewrite lookup_app_r by lia. rewrite Nat.sub_diag. reflexivity.
      * cbn [args]. apply lookup_ge_None. rewrite length_app. simpl. lia.
    + cbn [range_aux].
      replace (List.length pre <? List.length (pre ++ flag :: value :: rest)%list)%nat
        with true
        by (symmetry; apply Nat.ltb_lt; rewrite length_app; simpl; lia).
      cbn [for_each resolve_pairs]. rewrite !bind_eq.
      rewrite (parse_workflow_input_pair _ _ _ flag value).
      * destruct (pair_ a flag value t) as [[a'|e] t']; [|reflexivity].
        specialize (IH rest (pre ++ [flag; value])%list a' t').
        rewrite length_app in IH. cbn [List.length] in IH.
        rewrite <- app_assoc in IH. cbn [app] in IH.
        apply IH. simpl in Hfuel. lia.
      * cbn [args]. rewrite lookup_app_r by lia. rewrite Nat.sub_diag. reflexivity.
      * cbn [args]. rewrite lookup_app_r by lia.
        replace (List.length pre + 1 - List.length pre)%nat with 1%nat by lia.
        reflexivity.
Qed.

Lemma parse_as_pairs ctx t :
  _parse_workflow_inputs ctx wf_entity create_upload_location_fn t
  = pairs_ (args ctx) ∅ t.
Proof.
  destruct ctx as [tokens]. unfold _parse_workflow_inputs, range. cbn [args].
  rewrite Nat.sub_0_r.
  exact (loop_from (List.length tokens) tokens [] ∅ t (le_n _)).
Qed.

Lemma resolve_pairs_app pre : forall rest a t,
  Nat.even (List.length pre) = true ->
  pairs_ (pre ++ rest)%list a t
  = match pairs_ pre a t with
    | (Ok a', t') => pairs_ rest a' t'
    | (Raise e, t') => (Raise e, t')
    end.
Proof.
  induction pre as [|x|flag value pre IH] using list_pair_ind; intros rest a t Heven.
  - reflexivity.
  - discriminate.
  - cbn [app resolve_pairs]. rewrite !bind_eq.
    destruct (pair_ a flag value t) as [[a'|e] t']; [|reflexivity].
    apply IH. exact Heven.
Qed.

End Loop.

(** ** Properties of the argument resolution *)

Section Resolution.
Context {LiteralType : Type} `{!Collaborators LiteralType}.
Variable wf_entity : WorkflowBase LiteralType.
Variable create_upload_location_fn : M CreateUploadLocationResponse.

Local Abbreviation resolve tokens :=
  (_parse_workflow_inputs {| args := tokens |} wf_entity create_upload_location_fn).
Local Abbreviation pair_ := (resolve_pair wf_entity create_upload_location_fn).
Local Abbreviation pairs_ := (resolve_pairs wf_entity create_upload_location_fn).

(** Once the pairs before it are resolved, the resolution goes on with the
    next pair, from the dict and the trace they left. *)
Lemma resolve_next_pair pre flag value rest a t t' :
  Nat.even (List.length pre) = true ->
  resolve pre t = (Ok a, t') ->
  resolve (pre ++ flag :: value :: rest) t
  = match pair_ a flag value t' with
    | (Ok a', t'') => pairs_ rest a' t''
    | (Raise e, t'') => (Raise e, t'')
    end.
Proof.
  intros Heven Hpre. rewrite parse_as_pairs in Hpre |- *. cbn [args] in *.
  rewrite resolve_pairs_app by exact Heven. rewrite Hpre. reflexivity.
Qed.

(** A resolution that fails on a prefix of the tokens fails the same way
    on all of them. *)
Lemma resolve_prefix_raises pre rest e t t' :
  Nat.even (List.length pre) = true ->
  resolve pre t = (Raise e, t') ->
  resolve (pre ++ rest) t = (Raise e, t').
Proof.
  intros Heven Hpre. rewrite parse_as_pairs in Hpre |- *. cbn [args] in *.
  rewrite resolve_pairs_app by exact Heven. rewrite Hpre. reflexivity.
Qed.

(** C10: an odd number of tokens.  When the complete pairs resolve, the
    resolution reaches the dangling flag and raises [IndexError] there (the
    flag is not dropped and gets no default), with the trace the complete
    pairs left: their side effects have happened. *)
Theorem dangling_flag_raises_IndexError tokens flag a t t' :
  Nat.even (List.length tokens) = true ->
  resolve tokens t = (Ok a, t') ->
  resolve (tokens ++ [flag]) t = (Raise (IndexError "list index out of range"), t').
Proof.
  intros Heven Hres. rewrite parse_as_pairs in Hres |- *. cbn [args] in *.
  rewrite resolve_pairs_app by exact Heven. rewrite Hres. reflexivity.
Qed.

(** C5: a pair whose name, the first two characters of the flag dropped,
    is not an input of the workflow.  The resolution raises [KeyError], a
    [LookupError], on that name when it reaches the pair, whatever tokens
    follow; the trace is the one the pairs before it left, so nothing is
    done at or after that pair. *)
Theorem undeclared_argument_raises_KeyError pre flag value rest a t t' :
  Nat.even (List.length pre) = true ->
  resolve pre t = (Ok a, t') ->
  inputs (interface wf_entity) !! slice_from 2 flag = None ->
  resolve (pre ++ flag :: value :: rest) t = (Raise (KeyError (slice_from 2 flag)), t')
  /\ is_LookupError (KeyError (slice_from 2 flag)) = true.
Proof.
  intros Heven Hpre Habsent. split; [|reflexivity].
  rewrite (resolve_next_pair _ _ _ _ _ _ _ Heven Hpre).
  unfold resolve_pair. rewrite bind_eq. unfold lift, dict_getitem.
  rewrite Habsent. reflexivity.
Qed.

(** C6: a pair whose declared type the type engine maps to a Python type
    other than [str], [int] and [StructuredDataset].  The resolution raises
    a [ValueError] whose message ends with the name of the argument, and
    stops there. *)
Theorem unsupported_type_raises_ValueError pre flag value rest a t t' var ty :
  Nat.even (List.length pre) = true ->
  resolve pre t = (Ok a, t') ->
  inputs (interface wf_entity) !! slice_from 2 flag = Some var ->
  guess_python_type (type var) = Ok ty ->
  ty <> PyStr -> ty <> PyInt -> ty <> PyStructuredDataset ->
  resolve (pre ++ flag :: value :: rest) t
  = (Raise (ValueError (Message ("Unsupported type for argument " +:+ slice_from 2 flag))),
     t').
Proof.
  intros Heven Hpre Hvar Hty Hstr Hint Hsd.
  rewrite (resolve_next_pair _ _ _ _ _ _ _ Heven Hpre).
  unfold resolve_pair. rewrite bind_eq. unfold lift, dict_getitem.
  rewrite Hvar. rewrite bind_eq, Hty.
  destruct ty; try congruence. reflexivity.
Qed.


(** What a pair that resolves has done. *)
Lemma resolve_pair_Ok a flag value t a1 t1 :
  pair_ a flag value t = (Ok a1, t1) ->
  exists var ty v,
    inputs (interface wf_entity) !! slice_from 2 flag = Some var
    /\ guess_python_type (type var) = Ok ty
    /\ a1 = <[slice_from 2 flag := v]> a
    /\ ((ty = PyStr /\ v = VStr value /\ t1 = t)
        \/ (ty = PyInt
            /\ (exists n, int (int_max_str_digits t) value = Ok n /\ v = VInt n)
            /\ t1 = t)
        \/ (ty = PyStructuredDataset
            /\ exists d, (create_upload_location_fn t).1 = Ok d
                 /\ put_data (create_upload_location_fn t).2 value (signed_url d) = Ok tt
                 /\ v = VStructuredDataset {| uri := native_url d |}
                 /\ t1 = ((create_upload_location_fn t).2
                          ++ [PutData value (signed_url d)])%list)).
Proof.
  unfold resolve_pair. rewrite bind_eq. unfold lift, dict_getitem.
  destruct (inputs (interface wf_entity) !! slice_from 2 flag) as [var|]; [|discriminate].
  rewrite bind_eq.
  destruct (guess_python_type (type var)) as [ty|e] eqn:Hty; [|discriminate].
  rewrite bind_eq.
  destruct ty.
  - intros [= <- <-]. exists var, PyStr, (VStr value). auto 10.
  - rewrite bind_eq. unfold py_int.
    destruct (int (int_max_str_digits t) value) as [n|] eqn:Hn; [|discriminate].
    intros [= <- <-]. exists var, PyInt, (VInt n).
    repeat split; auto. right. left. eauto.
  - rewrite !bind_eq.
    destruct (create_upload_location_fn t) as [[d|e] t0]; [|discriminate].
    rewrite bind_eq. unfold call.
    destruct (put_data t0 value (signed_url d)) as [[]|e] eqn:Hput; [|discriminate].
    intros [= <- <-].
    exists var, PyStructuredDataset, (VStructuredDataset {| uri := native_url d |}).
    repeat split; auto. right. right. split; [reflexivity|].
    exists d. auto.
  - discriminate.
Qed.

(** C1: a pair whose declared type maps to [StructuredDataset], with
    collaborators that answer.  The upload factory is called once, then the
    file access layer once, with the raw value as the local path and the
    signed URL of the location as the destination, and nothing else is
    done; the value stored wraps the native URL of the location. *)
Theorem structured_dataset_uploaded_once pre flag value a t t' var upload_call d :
  (forall t0, (create_upload_location_fn t0).2 = (t0 ++ [upload_call])%list) ->
  Nat.even (List.length pre) = true ->
  resolve pre t = (Ok a, t') ->
  inputs (interface wf_entity) !! slice_from 2 flag = Some var ->
  guess_python_type (type var) = Ok PyStructuredDataset ->
  (create_upload_location_fn t').1 = Ok d ->
  put_data (t' ++ [upload_call])%list value (signed_url d) = Ok tt ->
  resolve (pre ++ [flag; value]) t
  = (Ok (<[slice_from 2 flag := VStructuredDataset {| uri := native_url d |}]> a),
     (t' ++ [upload_call; PutData value (signed_url d)])%list).
Proof.
  intros Hfn Heven Hpre Hvar Hty Hd Hput.
  rewrite (resolve_next_pair _ _ _ _ _ _ _ Heven Hpre).
  unfold resolve_pair. rewrite bind_eq. unfold lift, dict_getitem.
  rewrite Hvar. rewrite bind_eq, Hty. rewrite !bind_eq.
  specialize (Hfn t').
  destruct (create_upload_location_fn t') as [r t0]. simpl in Hfn, Hd. subst r t0.
  rewrite bind_eq. unfold call. rewrite Hput. simpl.
  rewrite <- app_assoc. reflexivity.
Qed.

(** C9, as the code has it: a pair that resolves is stored under its name
    with the first two characters, the prefix marker, dropped. *)
Theorem value_stored_under_stripped_name pre flag value a' t t'' :
  Nat.even (List.length pre) = true ->
  resolve (pre ++ [flag; value]) t = (Ok a', t'') ->
  exists a t' v,
    resolve pre t = (Ok a, t')
    /\ a' = <[slice_from 2 flag := v]> a
    /\ a' !! slice_from 2 flag = Some v.
Proof.
  intros Heven Hres. rewrite parse_as_pairs in Hres. cbn [args] in Hres.
  rewrite resolve_pairs_app in Hres by exact Heven.
  destruct (pairs_ pre ∅ t) as [[a|e] t'] eqn:Hpre; [|discriminate].
  cbn [resolve_pairs] in Hres. rewrite bind_eq in Hres.
  destruct (pair_ a flag value t') as [[a1|e] t1] eqn:Hpair; [|discriminate].
  simpl in Hres. injection Hres as <- <-.
  apply resolve_pair_Ok in Hpair as (var & ty & v & _ & _ & -> & _).
  exists a, t', v. rewrite parse_as_pairs. cbn [args].
  split; [exact Hpre|]. split; [reflexivity|]. apply lookup_insert_eq.
Qed.

Lemma declared_type_Some flag var ty :
  inputs (interface wf_entity) !! slice_from 2 flag = Some var ->
  guess_python_type (type var) = Ok ty ->
  declared_type wf_entity flag = Some ty.
Proof. intros Hvar Hty. unfold declared_type. rewrite Hvar, Hty. reflexivity. Qed.

Lemma structured_arguments_cons flag value rest :
  structured_arguments wf_entity (flag :: value :: rest)
  = match declared_type wf_entity flag with
    | Some PyStructuredDataset =>
        (slice_from 2 flag, value) :: structured_arguments wf_entity rest
    | _ => structured_arguments wf_entity rest
    end.
Proof.
  unfold structured_arguments. cbn [pairs]. simpl omap.
  destruct (declared_type wf_entity flag) as [[]|]; reflexivity.
Qed.

Lemma resolve_pairs_uploads upload_call :
  (forall t0, (create_upload_location_fn t0).2 = (t0 ++ [upload_call])%list) ->
  forall tokens a t a' t',
    pairs_ tokens a t = (Ok a', t') ->
    exists locations,
      List.length locations = List.length (structured_arguments wf_entity tokens)
      /\ t' = (t ++ upload_events upload_call (structured_arguments wf_entity tokens)
                      locations)%list.
Proof.
  intros Hfn tokens.
  induction tokens as [|x|flag value rest IH] using list_pair_ind; intros a t a' t' Hres.
  - injection Hres as <- <-. exists []. split; [reflexivity|].
    unfold upload_events. simpl. rewrite app_nil_r. reflexivity.
  - discriminate.
  - cbn [resolve_pairs] in Hres. rewrite bind_eq in Hres.
    destruct (pair_ a flag value t) as [[a1|e] t1] eqn:Hpair; [|discriminate].
    apply IH in Hres as (locations & Hlen & ->).
    apply resolve_pair_Ok in Hpair as (var & ty & v & Hvar & Hty & _ & Hcase).
    rewrite structured_arguments_cons, (declared_type_Some _ _ _ Hvar Hty).
    destruct Hcase as [(-> & _ & ->) | [(-> & _ & ->) | (-> & d & _ & _ & _ & ->)]].
    + exists locations. auto.
    + exists locations. auto.
    + exists (d :: locations). split; [simpl; congruence|].
      rewrite Hfn. unfold upload_events. cbn [zip zip_with flat_map].
      rewrite <- !app_assoc. reflexivity.
Qed.

(** C8: in a resolution that succeeds, the calls of the upload factory are
    those of the structured-dataset arguments in the order of the tokens:
    what the resolution adds to the trace is, for each such argument in
    turn, one call of the factory followed by the transfer of that
    argument's file to the location the call answered. *)
Theorem uploads_follow_token_order upload_call tokens a t t' :
  (forall t0, (create_upload_location_fn t0).2 = (t0 ++ [upload_call])%list) ->
  resolve tokens t = (Ok a, t') ->
  exists locations,
    List.length locations = List.length (structured_arguments wf_entity tokens)
    /\ t' = (t ++ upload_events upload_call (structured_arguments wf_entity tokens)
                    locations)%list.
Proof.
  intros Hfn Hres. rewrite parse_as_pairs in Hres. cbn [args] in Hres.
  exact (resolve_pairs_uploads upload_call Hfn tokens ∅ t a t' Hres).
Qed.

Lemma declared_type_inv flag ty :
  declared_type wf_entity flag = Some ty ->
  exists var,
    inputs (interface wf_entity) !! slice_from 2 flag = Some var
    /\ guess_python_type (type var) = Ok ty.
Proof.
  unfold declared_type.
  destruct (inputs (interface wf_entity) !! slice_from 2 flag) as [var|]; [|discriminate].
  destruct (guess_python_type (type var)) as [ty'|] eqn:Hty; [|discriminate].
  intros [= ->]. eauto.
Qed.

Lemma resolve_pair_convert a flag value t v :
  convert wf_entity (int_max_str_digits t) (slice_from 2 flag) value = Some v ->
  pair_ a flag value t = (Ok (<[slice_from 2 flag := v]> a), t).
Proof.
  unfold convert, resolve_pair. rewrite bind_eq. unfold lift, dict_getitem.
  destruct (inputs (interface wf_entity) !! slice_from 2 flag) as [var|]; [|discriminate].
  rewrite bind_eq.
  destruct (guess_python_type (type var)) as [[]|]; try discriminate.
  - intros [= <-]. reflexivity.
  - rewrite !bind_eq. unfold py_int.
    destruct (int (int_max_str_digits t) value) as [n|]; [|discriminate].
    intros [= <-]. reflexivity.
Qed.

Lemma convert_is_Some max_str_digits flag value :
  declared_type wf_entity flag = Some PyStr
  \/ declared_type wf_entity flag = Some PyInt ->
  (declared_type wf_entity flag = Some PyInt ->
   is_Some (integer_literal value)
   /\ exceeds_max_str_digits max_str_digits (digit_count value) = false) ->
  is_Some (convert wf_entity max_str_digits (slice_from 2 flag) value).
Proof.
  intros [Hty|Hty] Hint; unfold convert.
  - apply declared_type_inv in Hty as (var & -> & ->). eauto.
  - destruct (Hint Hty) as [[n Hn] Hlimit].
    apply declared_type_inv in Hty as (var & -> & ->).
    rewrite (proj2 (int_Ok max_str_digits value n) (conj Hn Hlimit)). eauto.
Qed.

Lemma last_value_cons argument flag value rest :
  last_value argument (flag :: value :: rest)
  = match last_value argument rest with
    | Some v => Some v
    | None => if decide (slice_from 2 flag = argument) then Some value else None
    end.
Proof.
  unfold last_value. cbn [pairs]. rewrite filter_cons. cbn [fst].
  case_decide; [|destruct (last _); reflexivity].
  rewrite last_cons. destruct (last _); reflexivity.
Qed.

Lemma resolve_pairs_text_or_integer tokens : forall a t,
  Nat.even (List.length tokens) = true ->
  text_or_integer wf_entity tokens ->
  integers_readable wf_entity (int_max_str_digits t) tokens ->
  exists m,
    pairs_ tokens a t = (Ok m, t)
    /\ dom m = list_to_set (provided_names tokens) ∪ dom a
    /\ forall argument,
         m !! argument
         = match last_value argument tokens with
           | Some value => convert wf_entity (int_max_str_digits t) argument value
           | None => a !! argument
           end.
Proof.
  unfold text_or_integer, integers_readable, provided_names.
  induction tokens as [|x|flag value rest IH] using list_pair_ind;
    intros a t Heven Htypes Hints.
  - exists a. split; [reflexivity|]. split; [|reflexivity].
    cbn [pairs map]. rewrite list_to_set_nil. symmetry. apply (left_id_L ∅ (∪)).
  - discriminate.
  - cbn [pairs] in Htypes, Hints.
    apply Forall_cons in Htypes as [Hty Htypes]. apply Forall_cons in Hints as [Hint Hints].
    cbn [fst snd] in Hty, Hint.
    destruct (convert_is_Some (int_max_str_digits t) flag value Hty Hint) as [v Hv].
    destruct (IH (<[slice_from 2 flag := v]> a) t Heven Htypes Hints)
      as (m & Hres & Hdom & Hlookup).
    exists m. split; [|split].
    + cbn [resolve_pairs]. rewrite bind_eq, (resolve_pair_convert _ _ _ _ _ Hv).
      exact Hres.
    + rewrite Hdom, dom_insert_L. cbn [pairs map fst]. rewrite list_to_set_cons.
      rewrite !(assoc_L (∪)). f_equal. apply (comm_L (∪)).
    + intros argument. rewrite Hlookup, last_value_cons.
      destruct (last_value argument rest); [reflexivity|].
      case_decide as Hname.
      * subst argument. rewrite lookup_insert_eq. symmetry. exact Hv.
      * apply lookup_insert_ne. exact Hname.
Qed.

(** C2, as the code has it: an even number of tokens whose names are all
    declared with types that map to [str] or [int], and whose values for an
    [int] are all integer literals with no more digits than the limit of
    the interpreter allows.  The resolution succeeds and calls no
    collaborator; the keys of the dict are exactly the names given; each
    name is mapped to the conversion of the value of its last pair, which
    depends on no other pair. *)
Theorem text_and_integer_arguments_resolved tokens t :
  Nat.even (List.length tokens) = true ->
  text_or_integer wf_entity tokens ->
  integers_readable wf_entity (int_max_str_digits t) tokens ->
  exists m,
    resolve tokens t = (Ok m, t)
    /\ dom m = list_to_set (provided_names tokens)
    /\ forall argument,
         m !! argument
         = last_value argument tokens ≫= convert wf_entity (int_max_str_digits t) argument.
Proof.
  intros Heven Htypes Hints.
  destruct (resolve_pairs_text_or_integer tokens ∅ t Heven Htypes Hints)
    as (m & Hres & Hdom & Hlookup).
  exists m. split; [|split].
  - rewrite parse_as_pairs. exact Hres.
  - rewrite Hdom, dom_empty_L. apply (right_id_L ∅ (∪)).
  - intros argument. rewrite Hlookup.
    destruct (last_value argument tokens); reflexivity.
Qed.

End Resolution.

(** ** Properties of the command *)

Lemma split_length sep s : List.length (split sep s) = (count sep s + 1)%nat.
Proof.
  induction s as [|c s IH]; [reflexivity|].
  cbn [split count]. destruct (Ascii.eqb c sep).
  - simpl. rewrite IH. lia.
  - destruct (split sep s) as [|p ps]; simpl in *; lia.
Qed.

Lemma split_no_separator sep s : count sep s = 0%nat -> split sep s = [s].
Proof.
  induction s as [|c s IH]; [reflexivity|].
  cbn [split count]. destruct (Ascii.eqb c sep); [discriminate|].
  intros Hs. rewrite (IH Hs). reflexivity.
Qed.

Lemma split_two_parts sep s filename workflow_name :
  split sep s = [filename; workflow_name] ->
  s = filename +:+ String sep workflow_name
  /\ count sep filename = 0%nat /\ count sep workflow_name = 0%nat.
Proof.
  revert filename. induction s as [|c s IH]; intros filename; [discriminate|].
  cbn [split]. destruct (Ascii.eqb c sep) eqn:Hc.
  - apply Ascii.eqb_eq in Hc as ->. intros [= <- Hs].
    assert (Hcount : count sep s = 0%nat).
    { pose proof (split_length sep s) as Hlen. rewrite Hs in Hlen. simpl in Hlen. lia. }
    rewrite (split_no_separator _ _ Hcount) in Hs. injection Hs as ->. auto.
  - destruct (split sep s) as [|p ps] eqn:Hs; [discriminate|].
    intros [= <- ->]. destruct (IH p eq_refl) as (-> & Hp & Hw).
    split; [reflexivity|]. split; [|exact Hw]. cbn [count]. rewrite Hc. exact Hp.
Qed.

Lemma app_cons_neq {A} (l l' : list A) (x : A) : (l ++ x :: l')%list <> l.
Proof.
  intros Heq. apply (f_equal List.length) in Heq.
  rewrite length_app in Heq. simpl in Heq. lia.
Qed.

(** *** What an action adds to the trace *)

Lemma logs_inv {A} (P : event -> Prop) (m : M A) t r t' :
  logs P m -> m t = (r, t') -> exists more, t' = (t ++ more)%list /\ Forall P more.
Proof. intros Hm Hrun. destruct (Hm t) as (more & Heq & HP). rewrite Hrun in Heq. eauto. Qed.

Lemma logs_ret {A} P (a : A) : logs P (ret a).
Proof. intros t. exists []. simpl. rewrite app_nil_r. auto. Qed.

Lemma logs_raise {A} P e : logs P (@raise A e).
Proof. intros t. exists []. simpl. rewrite app_nil_r. auto. Qed.

Lemma logs_lift {A} P (r : except A) : logs P (lift r).
Proof. intros t. exists []. simpl. rewrite app_nil_r. auto. Qed.

Lemma logs_call {A} (P : event -> Prop) e (oracle : trace -> except A) :
  P e -> logs P (call e oracle).
Proof. intros He t. exists [e]. simpl. auto. Qed.

Lemma logs_bind {A B} P (m : M A) (k : A -> M B) :
  logs P m -> (forall a, logs P (k a)) -> logs P (bind m k).
Proof.
  intros Hm Hk t. rewrite bind_eq.
  destruct (m t) as [[a|e] t'] eqn:Hrun;
    apply (logs_inv _ _ _ _ _ Hm) in Hrun as (more & -> & Hmore).
  - destruct (Hk a (t ++ more)%list) as (more' & -> & Hmore').
    exists (more ++ more')%list. rewrite app_assoc. split; [reflexivity|].
    apply Forall_app; auto.
  - exists more. auto.
Qed.

Lemma logs_for_each {A S} P (body : S -> A -> M S) (l : list A) :
  (forall s x, logs P (body s x)) -> forall s, logs P (for_each l body s).
Proof.
  intros Hbody. induction l as [|x l IH]; intros s; cbn [for_each].
  - apply logs_ret.
  - apply logs_bind; auto.
Qed.

Lemma starts_with_call {A} P e (oracle : trace -> except A) :
  starts_with P e (call e oracle).
Proof. intros t. exists []. split; [reflexivity|constructor]. Qed.

Lemma starts_with_bind {A B} P e (m : M A) (k : A -> M B) :
  starts_with P e m -> (forall a, logs P (k a)) -> starts_with P e (bind m k).
Proof.
  intros Hm Hk t. rewrite bind_eq. destruct (Hm t) as (tail & Hrun & Htail).
  destruct (m t) as [[a|err] t']; simpl in Hrun; subst t'.
  - destruct (Hk a (t ++ e :: tail)%list) as (more & -> & Hmore).
    exists (tail ++ more)%list. rewrite <- app_assoc. split; [reflexivity|].
    apply Forall_app; auto.
  - exists tail. auto.
Qed.

Lemma logs_py_int {LiteralType : Type} `{!Collaborators LiteralType} P value :
  logs P (py_int value).
Proof. intros t. exists []. simpl. rewrite app_nil_r. auto. Qed.

Ltac logs_step :=
  first
    [ apply logs_ret
    | apply logs_py_int
    | apply logs_raise
    | apply logs_lift
    | apply logs_call
    | apply logs_bind; [|intros ?]
    | apply logs_for_each; intros ? ?
    | case_decide
    | match goal with |- logs _ (if ?b then _ else _) => destruct b end ].

Section Command.
Context {LiteralType : Type} `{!Collaborators LiteralType}.

Lemma logs_parse_workflow_inputs P click_ctx (wf_entity : WorkflowBase LiteralType) fn :
  logs P fn -> (forall local_path remote_path, P (PutData local_path remote_path)) ->
  logs P (_parse_workflow_inputs click_ctx wf_entity fn).
Proof.
  intros Hfn Hput. unfold _parse_workflow_inputs, parse_workflow_input.
  repeat (logs_step; auto).
Qed.

Lemma logs_load_naive_entity P module_name workflow_name :
  P (ImportModule module_name) ->
  P (LoadObjectFromModule (module_name +:+ "." +:+ workflow_name)) ->
  logs P (_load_naive_entity module_name workflow_name).
Proof. intros Himport Hload. unfold _load_naive_entity. repeat (logs_step; auto). Qed.

Lemma logs_run click_ctx file_and_workflow remote project domain destination_dir
    image_config :
  logs (fun _ => True)
    (run click_ctx file_and_workflow remote project domain destination_dir image_config).
Proof.
  unfold run.
  destruct (split ":" file_and_workflow) as [|filename [|workflow_name [|c l]]];
    try apply logs_raise.
  unfold create_upload_location.
  repeat (logs_step; auto using logs_parse_workflow_inputs, logs_load_naive_entity, logs_call).
Qed.

(** [run] starts by importing the module named after the file. *)
Lemma run_imports_first click_ctx file_and_workflow remote project domain destination_dir
    image_config filename workflow_name :
  split ":" file_and_workflow = [filename; workflow_name] ->
  starts_with (fun _ => True) (ImportModule (replace "/" "." (splitext filename).1))
    (run click_ctx file_and_workflow remote project domain destination_dir image_config).
Proof.
  intros Hsplit. unfold run. rewrite Hsplit. cbn zeta.
  apply starts_with_bind.
  - unfold _load_naive_entity. apply starts_with_bind.
    + apply starts_with_call.
    + intros _. logs_step. exact I.
  - intros wf_entity. unfold create_upload_location.
    repeat (logs_step; auto using logs_parse_workflow_inputs, logs_call).
Qed.

(** C7: the positional argument.  Splitting on the colon gives one part
    more than there are colons.  With a number of colons other than one,
    [run] raises [FlyteValidationException] and the trace is untouched: no
    module is loaded and no collaborator called.  With one colon the
    argument is the file name, a colon and the workflow name, and [run]
    goes on to import the module of that file; so the validation fails
    exactly when there are no or several colons. *)
Theorem positional_argument_validated click_ctx file_and_workflow remote project domain
    destination_dir image_config t :
  let outcome :=
    run click_ctx file_and_workflow remote project domain destination_dir image_config t in
  List.length (split ":" file_and_workflow) = (count ":" file_and_workflow + 1)%nat
  /\ (count ":" file_and_workflow <> 1%nat ->
      outcome
      = (Raise (FlyteValidationException
                  ("Input " +:+ file_and_workflow +:+
                   " must be in format '<file.py>:<worfklow>'")), t))
  /\ (count ":" file_and_workflow = 1%nat ->
      exists filename workflow_name tail,
        file_and_workflow = filename +:+ ":" +:+ workflow_name
        /\ split ":" file_and_workflow = [filename; workflow_name]
        /\ outcome.2
           = (t ++ ImportModule (replace "/" "." (splitext filename).1) :: tail)%list)
  /\ ((exists msg, outcome = (Raise (FlyteValidationException msg), t))
      <-> count ":" file_and_workflow <> 1%nat).
Proof.
  intros outcome.
  pose proof (split_length ":" file_and_workflow) as Hlen.
  assert (Hbad : count ":" file_and_workflow <> 1%nat ->
    outcome
    = (Raise (FlyteValidationException
                ("Input " +:+ file_and_workflow +:+
                 " must be in format '<file.py>:<worfklow>'")), t)).
  { intros Hcount. subst outcome. unfold run.
    destruct (split ":" file_and_workflow) as [|a [|b [|c l]]]; try reflexivity.
    simpl in Hlen. lia. }
  assert (Hgood : count ":" file_and_workflow = 1%nat ->
    exists filename workflow_name tail,
      file_and_workflow = filename +:+ ":" +:+ workflow_name
      /\ split ":" file_and_workflow = [filename; workflow_name]
      /\ outcome.2
         = (t ++ ImportModule (replace "/" "." (splitext filename).1) :: tail)%list).
  { intros Hcount.
    destruct (split ":" file_and_workflow) as [|filename [|workflow_name [|c l]]] eqn:Hsplit;
      try (simpl in Hlen; lia).
    destruct (split_two_parts _ _ _ _ Hsplit) as (Hs & _ & _).
    destruct (run_imports_first click_ctx file_and_workflow remote project domain
                destination_dir image_config filename workflow_name Hsplit t)
      as (tail & Htrace & _).
    exists filename, workflow_name, tail. auto. }
  split; [exact Hlen|]. split; [exact Hbad|]. split; [exact Hgood|].
  split.
  - intros [msg Hmsg] Hcount. destruct (Hgood Hcount) as (f & w & tail & _ & _ & Htrace).
    rewrite Hmsg in Htrace. simpl in Htrace. symmetry in Htrace.
    exact (app_cons_neq _ _ _ Htrace).
  - intros Hcount. eexists. exact (Hbad Hcount).
Qed.

(** One stage of [run]: the outcome of the action whose trace [Hlogs]
    describes is split into what it logged, [more], and its result. *)
Ltac stage Hlogs x more HP :=
  rewrite !bind_eq;
  match type of Hlogs with
  | logs _ ?m =>
      match goal with
      | |- context [m ?t] =>
          let r := fresh "r" in
          let t' := fresh "t" in
          let Hrun := fresh "Hrun" in
          destruct (m t) as [r t'] eqn:Hrun;
          apply (logs_inv _ _ _ _ _ Hlogs) in Hrun as (more & -> & HP);
          destruct r as [x | ?]; cbv beta iota
      end
  end.

Lemma upload_requests_fixed tr :
  Forall fixed_location tr ->
  Forall (fun request => request = ("flytesnacks", "development", None)) (upload_requests tr).
Proof.
  induction 1 as [|e tr He _ IH]; [constructor|].
  unfold upload_requests. simpl omap. unfold fixed_location in He.
  destruct (upload_request e); [constructor|]; assumption.
Qed.

Lemma upload_requests_none tr :
  Forall (fun e => upload_request e = None) tr -> upload_requests tr = [].
Proof.
  induction 1 as [|e tr He _ IH]; [reflexivity|].
  unfold upload_requests. simpl omap. rewrite He. exact IH.
Qed.

(** Two runs that differ in the project and the domain only log the same
    events up to the request for the location of the script archive, and
    every request for an upload location among them is for the fixed
    project and domain; whatever their outcome. *)
Lemma runs_agree_before_the_archive click_ctx file_and_workflow remote
    destination_dir image_config t project1 domain1 project2 domain2 :
  let run1 :=
    run click_ctx file_and_workflow remote project1 domain1 destination_dir image_config t in
  let run2 :=
    run click_ctx file_and_workflow remote project2 domain2 destination_dir image_config t in
  exists common,
    ((run1.2 = (t ++ common)%list /\ run2.2 = (t ++ common)%list)
     \/ exists version tail1 tail2,
          let suffix := Some ("scriptmode-" +:+ version +:+ ".tar.gz") in
          run1.2 = (t ++ common ++ CreateUploadLocation project1 domain1 suffix :: tail1)%list
          /\ run2.2
             = (t ++ common ++ CreateUploadLocation project2 domain2 suffix :: tail2)%list
          /\ upload_requests tail1 = [] /\ upload_requests tail2 = [])
    /\ Forall (fun request => request = ("flytesnacks", "development", None))
         (upload_requests common).
Proof.
  intros run1 run2. subst run1 run2. unfold run.
  destruct (split ":" file_and_workflow) as [|filename [|workflow_name [|c l]]];
    try (exists []; split; [left; rewrite app_nil_r; split; reflexivity | constructor]).
  cbn zeta.
  set (module := replace "/" "." (splitext filename).1).
  assert (Hload : logs fixed_location (_load_naive_entity module workflow_name))
    by (apply logs_load_naive_entity; exact I).
  stage Hload wf_entity more1 HP1;
    [|exists more1; split; [left; auto | apply upload_requests_fixed; exact HP1]].
  destruct remote; cycle 1.
  { exists more1. split; [left; auto | apply upload_requests_fixed; exact HP1]. }
  assert (Hconfig : logs fixed_location (call PlatformConfigAuto platform_config_auto))
    by (apply logs_call; exact I).
  stage Hconfig config_obj more2 HP2;
    [|exists (more1 ++ more2)%list; rewrite app_assoc;
      split; [left; auto | apply upload_requests_fixed, Forall_app; auto]].
  assert (Hclient :
    logs fixed_location (call NewSynchronousFlyteClient new_synchronous_flyte_client))
    by (apply logs_call; exact I).
  stage Hclient client more3 HP3;
    [|exists (more1 ++ more2 ++ more3)%list; rewrite !app_assoc;
      split; [left; auto | apply upload_requests_fixed; rewrite <- !app_assoc;
                           repeat (apply Forall_app; split); auto]].
  assert (Hparse :
    logs fixed_location
      (_parse_workflow_inputs click_ctx wf_entity
         (create_upload_location "flytesnacks" "development" None))).
  { apply logs_parse_workflow_inputs; [|intros; exact I].
    apply logs_call. reflexivity. }
  stage Hparse inputs_ more4 HP4;
    [|exists (more1 ++ more2 ++ more3 ++ more4)%list; rewrite !app_assoc;
      split; [left; auto | apply upload_requests_fixed; rewrite <- !app_assoc;
                           repeat (apply Forall_app; split); auto]].
  assert (Hhash :
    logs fixed_location (call (HashScriptFile filename)
                           (fun t0 => hash_script_file t0 filename)))
    by (apply logs_call; exact I).
  stage Hhash version more5 HP5;
    [|exists (more1 ++ more2 ++ more3 ++ more4 ++ more5)%list; rewrite !app_assoc;
      split; [left; auto | apply upload_requests_fixed; rewrite <- !app_assoc;
                           repeat (apply Forall_app; split); auto]].
  exists (more1 ++ more2 ++ more3 ++ more4 ++ more5)%list.
  split; [|apply upload_requests_fixed; repeat (apply Forall_app; split); auto].
  right. exists version.
  set (quiet := fun e => upload_request e = None).
  assert (Harchive : forall project domain,
    starts_with quiet
      (CreateUploadLocation project domain (Some ("scriptmode-" +:+ version +:+ ".tar.gz")))
      (run_from_archive wf_entity inputs_ version project domain destination_dir
         image_config)).
  { intros project domain. unfold run_from_archive, create_upload_location.
    apply starts_with_bind; [apply starts_with_call|].
    intros upload_location. repeat (logs_step; try reflexivity). }
  destruct (Harchive project1 domain1 (((((t ++ more1) ++ more2) ++ more3) ++ more4) ++ more5)%list)
    as (tail1 & Hrun1 & Hquiet1).
  destruct (Harchive project2 domain2 (((((t ++ more1) ++ more2) ++ more3) ++ more4) ++ more5)%list)
    as (tail2 & Hrun2 & Hquiet2).
  exists tail1, tail2. cbn zeta.
  split; [|split; [|split; apply upload_requests_none; assumption]].
  - etransitivity; [exact Hrun1|]. rewrite <- !app_assoc. reflexivity.
  - etransitivity; [exact Hrun2|]. rewrite <- !app_assoc. reflexivity.
Qed.

(** *** [run], stage by stage *)

Lemma run_load_fails click_ctx file_and_workflow remote project domain destination_dir
    image_config t filename workflow_name e t1 :
  split ":" file_and_workflow = [filename; workflow_name] ->
  _load_naive_entity (replace "/" "." (splitext filename).1) workflow_name t
  = (Raise e, t1) ->
  run click_ctx file_and_workflow remote project domain destination_dir image_config t
  = (Raise e, t1).
Proof.
  intros Hsplit Hload. unfold run. rewrite Hsplit. cbn zeta.
  rewrite bind_eq, Hload. reflexivity.
Qed.

Lemma run_without_remote click_ctx file_and_workflow project domain destination_dir
    image_config t filename workflow_name wf_entity t1 :
  split ":" file_and_workflow = [filename; workflow_name] ->
  _load_naive_entity (replace "/" "." (splitext filename).1) workflow_name t
  = (Ok wf_entity, t1) ->
  run click_ctx file_and_workflow false project domain destination_dir image_config t
  = (Raise (UnboundLocalError "wf"), t1).
Proof.
  intros Hsplit Hload. unfold run. rewrite Hsplit. cbn zeta.
  rewrite bind_eq, Hload. reflexivity.
Qed.

Lemma run_config_fails click_ctx file_and_workflow project domain destination_dir
    image_config t filename workflow_name wf_entity t1 e :
  split ":" file_and_workflow = [filename; workflow_name] ->
  _load_naive_entity (replace "/" "." (splitext filename).1) workflow_name t
  = (Ok wf_entity, t1) ->
  platform_config_auto t1 = Raise e ->
  run click_ctx file_and_workflow true project domain destination_dir image_config t
  = (Raise e, (t1 ++ [PlatformConfigAuto])%list).
Proof.
  intros Hsplit Hload Hconfig. unfold run. rewrite Hsplit. cbn zeta.
  rewrite bind_eq, Hload. rewrite bind_eq. unfold call at 1. rewrite Hconfig.
  reflexivity.
Qed.

Lemma run_client_fails click_ctx file_and_workflow project domain destination_dir
    image_config t filename workflow_name wf_entity t1 e :
  split ":" file_and_workflow = [filename; workflow_name] ->
  _load_naive_entity (replace "/" "." (splitext filename).1) workflow_name t
  = (Ok wf_entity, t1) ->
  platform_config_auto t1 = Ok tt ->
  new_synchronous_flyte_client (t1 ++ [PlatformConfigAuto])%list = Raise e ->
  run click_ctx file_and_workflow true project domain destination_dir image_config t
  = (Raise e, (t1 ++ [PlatformConfigAuto; NewSynchronousFlyteClient])%list).
Proof.
  intros Hsplit Hload Hconfig Hclient. unfold run. rewrite Hsplit. cbn zeta.
  rewrite bind_eq, Hload. rewrite bind_eq. unfold call at 1. rewrite Hconfig.
  cbv beta iota. rewrite bind_eq. unfold call at 1. rewrite Hclient.
  cbv beta iota. rewrite <- app_assoc. reflexivity.
Qed.

(** Once the workflow is loaded and the client set up, a remote run is the
    resolution of the arguments, the hash of the script and the end of
    [run]. *)
Lemma run_from_resolution click_ctx file_and_workflow project domain destination_dir
    image_config t filename workflow_name wf_entity t1 :
  split ":" file_and_workflow = [filename; workflow_name] ->
  _load_naive_entity (replace "/" "." (splitext filename).1) workflow_name t
  = (Ok wf_entity, t1) ->
  platform_config_auto t1 = Ok tt ->
  new_synchronous_flyte_client (t1 ++ [PlatformConfigAuto])%list = Ok tt ->
  run click_ctx file_and_workflow true project domain destination_dir image_config t
  = match _parse_workflow_inputs click_ctx wf_entity
            (create_upload_location "flytesnacks" "development" None)
            (t1 ++ [PlatformConfigAuto; NewSynchronousFlyteClient])%list with
    | (Ok inputs_, t2) =>
        match hash_script_file t2 filename with
        | Ok version =>
            run_from_archive wf_entity inputs_ version project domain destination_dir
              image_config (t2 ++ [HashScriptFile filename])%list
        | Raise e => (Raise e, (t2 ++ [HashScriptFile filename])%list)
        end
    | (Raise e, t2) => (Raise e, t2)
    end.
Proof.
  intros Hsplit Hload Hconfig Hclient. unfold run. rewrite Hsplit. cbn zeta.
  rewrite bind_eq, Hload. rewrite bind_eq. unfold call at 1. rewrite Hconfig.
  cbv beta iota. rewrite bind_eq. unfold call at 1. rewrite Hclient.
  cbv beta iota. rewrite <- app_assoc. cbn [app]. rewrite bind_eq.
  destruct (_parse_workflow_inputs _ _ _ _) as [[inputs_|e] t2]; [|reflexivity].
  rewrite bind_eq. unfold call at 1.
  destruct (hash_script_file t2 filename); reflexivity.
Qed.

(** The end of [run] starts with the request for the location of the
    archive, for the project and the domain of the run, and asks for no
    other location. *)
Lemma run_from_archive_requests (wf_entity : WorkflowBase LiteralType) inputs_ version
    project domain destination_dir image_config :
  starts_with (fun e => upload_request e = None)
    (CreateUploadLocation project domain (Some ("scriptmode-" +:+ version +:+ ".tar.gz")))
    (run_from_archive wf_entity inputs_ version project domain destination_dir
       image_config).
Proof.
  unfold run_from_archive, create_upload_location.
  apply starts_with_bind; [apply starts_with_call|].
  intros upload_location. repeat (logs_step; try reflexivity).
Qed.

(** C3: two runs of the command on the same arguments, from the same
    trace, that differ in the project and the domain only.  Whatever their
    outcome, the two runs log the same events up to the request for the
    location of the script archive, and every request for an upload
    location among them is for project [flytesnacks] and domain
    [development].  And when the workflow is loaded, the client set up, the
    arguments resolved and the script hashed, both runs have asked, for
    each structured-dataset argument in turn, one location for
    [flytesnacks] and [development], and each run then asks the location
    of the archive for its own project and domain, and no other location
    after it. *)
Theorem structured_uploads_ignore_project_and_domain click_ctx file_and_workflow remote
    destination_dir image_config t project1 domain1 project2 domain2 :
  let run1 :=
    run click_ctx file_and_workflow remote project1 domain1 destination_dir image_config t in
  let run2 :=
    run click_ctx file_and_workflow remote project2 domain2 destination_dir image_config t in
  (exists common,
     ((run1.2 = (t ++ common)%list /\ run2.2 = (t ++ common)%list)
      \/ exists version tail1 tail2,
           let suffix := Some ("scriptmode-" +:+ version +:+ ".tar.gz") in
           run1.2
           = (t ++ common ++ CreateUploadLocation project1 domain1 suffix :: tail1)%list
           /\ run2.2
              = (t ++ common ++ CreateUploadLocation project2 domain2 suffix :: tail2)%list
           /\ upload_requests tail1 = [] /\ upload_requests tail2 = [])
     /\ Forall (fun request => request = ("flytesnacks", "development", None))
          (upload_requests common))
  /\ (forall filename workflow_name wf_entity t1 inputs_ t2 version,
        remote = true ->
        split ":" file_and_workflow = [filename; workflow_name] ->
        _load_naive_entity (replace "/" "." (splitext filename).1) workflow_name t
        = (Ok wf_entity, t1) ->
        platform_config_auto t1 = Ok tt ->
        new_synchronous_flyte_client (t1 ++ [PlatformConfigAuto])%list = Ok tt ->
        _parse_workflow_inputs click_ctx wf_entity
          (create_upload_location "flytesnacks" "development" None)
          (t1 ++ [PlatformConfigAuto; NewSynchronousFlyteClient])%list
        = (Ok inputs_, t2) ->
        hash_script_file t2 filename = Ok version ->
        let suffix := Some ("scriptmode-" +:+ version +:+ ".tar.gz") in
        let structured := structured_arguments wf_entity (args click_ctx) in
        exists locations tail1 tail2,
          List.length locations = List.length structured
          /\ t2 = ((t1 ++ [PlatformConfigAuto; NewSynchronousFlyteClient])
                   ++ upload_events
                        (CreateUploadLocation "flytesnacks" "development" None)
                        structured locations)%list
          /\ run1.2
             = (t2 ++ HashScriptFile filename
                   :: CreateUploadLocation project1 domain1 suffix :: tail1)%list
          /\ run2.2
             = (t2 ++ HashScriptFile filename
                   :: CreateUploadLocation project2 domain2 suffix :: tail2)%list
          /\ upload_requests tail1 = [] /\ upload_requests tail2 = []).
Proof.
  intros run1 run2. split.
  { exact (runs_agree_before_the_archive click_ctx file_and_workflow remote
             destination_dir image_config t project1 domain1 project2 domain2). }
  intros filename workflow_name wf_entity t1 inputs_ t2 version
    -> Hsplit Hload Hconfig Hclient Hparse Hhash suffix structured.
  assert (Hrun : forall project domain,
    exists tail,
      (run click_ctx file_and_workflow true project domain destination_dir
         image_config t).2
      = (t2 ++ HashScriptFile filename
            :: CreateUploadLocation project domain suffix :: tail)%list
      /\ upload_requests tail = []).
  { intros project domain.
    rewrite (run_from_resolution _ _ _ _ _ _ _ _ _ _ _ Hsplit Hload Hconfig Hclient).
    rewrite Hparse, Hhash.
    destruct (run_from_archive_requests wf_entity inputs_ version project domain
                destination_dir image_config (t2 ++ [HashScriptFile filename])%list)
      as (tail & -> & Hquiet).
    exists tail. split; [|apply upload_requests_none; exact Hquiet].
    rewrite <- app_assoc. reflexivity. }
  pose proof Hparse as Hevents. rewrite parse_as_pairs in Hevents.
  apply (resolve_pairs_uploads wf_entity _
           (CreateUploadLocation "flytesnacks" "development" None)) in Hevents
    as (locations & Hlen & Hevents); [|reflexivity].
  destruct (Hrun project1 domain1) as (tail1 & Hrun1 & Hquiet1).
  destruct (Hrun project2 domain2) as (tail2 & Hrun2 & Hquiet2).
  exists locations, tail1, tail2. auto 10.
Qed.

End Command.

(** ** The properties at work on concrete runs *)

Section Instances.
Import Fixture.

Local Abbreviation upload_call := (CreateUploadLocation "flytesnacks" "development" None).

Lemma upload_factory_logs t0 : (upload_factory t0).2 = (t0 ++ [upload_call])%list.
Proof. reflexivity. Qed.

Lemma dangling_flag_witness :
  _parse_workflow_inputs {| args := ["--df"; "a.csv"] ++ ["--count"] |} wf upload_factory []
  = (Raise (IndexError "list index out of range"),
     [upload_call; PutData "a.csv" "https://signed/flytesnacks/development/0"]).
Proof.
  apply (dangling_flag_raises_IndexError wf upload_factory ["--df"; "a.csv"] "--count"
           (<["df" := VStructuredDataset
                        {| uri := "s3://bucket/flytesnacks/development/0" |}]> ∅)).
  - reflexivity.
  - vm_compute. reflexivity.
Defined.

Lemma undeclared_argument_witness :
  _parse_workflow_inputs
    {| args := ["--count"; "1"] ++ ["--missing"; "x"; "--df"; "a.csv"] |} wf upload_factory []
  = (Raise (KeyError (slice_from 2 "--missing")), [])
  /\ is_LookupError (KeyError (slice_from 2 "--missing")) = true.
Proof.
  apply (undeclared_argument_raises_KeyError wf upload_factory ["--count"; "1"] "--missing"
           "x" ["--df"; "a.csv"] (<["count" := VInt 1]> ∅)).
  - reflexivity.
  - vm_compute. reflexivity.
  - vm_compute. reflexivity.
Defined.

Lemma unsupported_type_witness :
  _parse_workflow_inputs {| args := [] ++ ["--ratio"; "0.5"; "--count"; "1"] |} wf
    upload_factory []
  = (Raise (ValueError (Message ("Unsupported type for argument "
                                 +:+ slice_from 2 "--ratio"))), []).
Proof.
  apply (unsupported_type_raises_ValueError wf upload_factory [] "--ratio" "0.5"
           ["--count"; "1"] ∅ [] [] (var FLOAT) (PyOther "float")).
  - reflexivity.
  - vm_compute. reflexivity.
  - vm_compute. reflexivity.
  - reflexivity.
  - discriminate.
  - discriminate.
  - discriminate.
Defined.




Lemma structured_dataset_witness :
  let d := location [] "flytesnacks" "development" None in
  _parse_workflow_inputs {| args := ["--count"; "3"] ++ ["--df"; "/local/data.csv"] |} wf
    upload_factory []
  = (Ok (<[slice_from 2 "--df" := VStructuredDataset {| uri := native_url d |}]>
           (<["count" := VInt 3]> ∅)),
     ([] ++ [upload_call; PutData "/local/data.csv" (signed_url d)])%list).
Proof.
  intros d.
  apply (structured_dataset_uploaded_once wf upload_factory ["--count"; "3"] "--df"
           "/local/data.csv" (<["count" := VInt 3]> ∅) [] [] (var STRUCTURED_DATASET)
           upload_call d).
  - exact upload_factory_logs.
  - reflexivity.
  - vm_compute. reflexivity.
  - vm_compute. reflexivity.
  - reflexivity.
  - reflexivity.
  - reflexivity.
Defined.

Lemma uploads_follow_token_order_witness :
  let tokens := ["--df"; "a.csv"; "--count"; "1"; "--df"; "b.csv"] in
  exists locations,
    List.length locations = List.length (structured_arguments wf tokens)
    /\ [upload_call; PutData "a.csv" "https://signed/flytesnacks/development/0";
        upload_call; PutData "b.csv" "https://signed/flytesnacks/development/2"]
       = ([] ++ upload_events upload_call (structured_arguments wf tokens) locations)%list.
Proof.
  intros tokens.
  apply (uploads_follow_token_order wf upload_factory upload_call tokens
           (<["df" := VStructuredDataset
                        {| uri := "s3://bucket/flytesnacks/development/2" |}]>
              (<["count" := VInt 1]> ∅))).
  - exact upload_factory_logs.
  - vm_compute. reflexivity.
Defined.

Example structured_arguments_in_order :
  structured_arguments wf ["--df"; "a.csv"; "--count"; "1"; "--df"; "b.csv"]
  = [("df", "a.csv"); ("df", "b.csv")].
Proof. vm_compute. reflexivity. Qed.

(** The claim C9 as the specification words it fails: the key of the pair
    [--count 42] is [count], and [--count] is no key. *)
Lemma key_is_not_the_flag :
  exists m,
    resolve ["--count"; "42"] = (Ok m, [])
    /\ m !! "--count" = None
    /\ ~ is_Some (m !! "--count")
    /\ m !! "count" = Some (VInt 42).
Proof.
  exists (<["count" := VInt 42]> ∅).
  split; [vm_compute; reflexivity|].
  assert (Hnone : (<["count" := VInt 42]> ∅ : gmap string py_value) !! "--count" = None)
    by (vm_compute; reflexivity).
  split; [exact Hnone|]. split; [|vm_compute; reflexivity].
  rewrite Hnone. intros [v Hv]. discriminate.
Qed.

Lemma value_stored_under_stripped_name_witness :
  exists a t' v,
    _parse_workflow_inputs {| args := ["--label"; "x"] |} wf upload_factory [] = (Ok a, t')
    /\ <["count" := VInt 42]> (<["label" := VStr "x"]> ∅)
       = <[slice_from 2 "--count" := v]> a
    /\ (<["count" := VInt 42]> (<["label" := VStr "x"]> ∅) : gmap string py_value)
       !! slice_from 2 "--count" = Some v.
Proof.
  apply (value_stored_under_stripped_name wf upload_factory ["--label"; "x"] "--count" "42"
           (<["count" := VInt 42]> (<["label" := VStr "x"]> ∅)) [] []).
  - reflexivity.
  - vm_compute. reflexivity.
Defined.

(** The claim C2 as the specification words it fails: an even number of
    tokens, the one name declared as an integer, and the resolution
    raises. *)
Lemma integer_literal_needed :
  Nat.even (List.length ["--count"; "abc"]) = true
  /\ text_or_integer wf ["--count"; "abc"]
  /\ resolve ["--count"; "abc"] = (Raise (ValueError (InvalidLiteralForInt 10 "abc")), [])
  /\ ~ exists m tr, resolve ["--count"; "abc"] = (Ok m, tr).
Proof.
  assert (Hres : resolve ["--count"; "abc"]
                 = (Raise (ValueError (InvalidLiteralForInt 10 "abc")), []))
    by (vm_compute; reflexivity).
  split; [reflexivity|]. split; [|split; [exact Hres|]].
  - unfold text_or_integer. cbn [pairs]. apply Forall_cons. split; [|constructor].
    right. vm_compute. reflexivity.
  - intros (m & tr & Hok). rewrite Hres in Hok. discriminate.
Qed.

Lemma text_and_integer_arguments_witness :
  let tokens := ["--count"; "42"; "--label"; "hello"; "--count"; "7"] in
  exists m,
    _parse_workflow_inputs {| args := tokens |} wf upload_factory [] = (Ok m, [])
    /\ dom m = list_to_set (provided_names tokens)
    /\ forall argument,
         m !! argument
         = last_value argument tokens ≫= convert wf (int_max_str_digits []) argument.
Proof.
  intros tokens.
  apply (text_and_integer_arguments_resolved wf upload_factory tokens []).
  - reflexivity.
  - unfold text_or_integer, tokens. cbn [pairs].
    repeat (apply Forall_cons; split); try (apply Forall_nil; exact I); vm_compute; auto.
  - unfold integers_readable, tokens. cbn [pairs].
    repeat (apply Forall_cons; split); try (apply Forall_nil; exact I);
      intros Hint; cbn [fst snd] in *;
      first [ vm_compute in Hint; discriminate
            | split; [eexists; vm_compute; reflexivity | vm_compute; reflexivity] ].
Defined.

Example last_pair_wins :
  resolve ["--count"; "42"; "--label"; "hello"; "--count"; "7"]
  = (Ok (<["count" := VInt 7]> (<["label" := VStr "hello"]> ∅)), []).
Proof. vm_compute. reflexivity. Qed.

Lemma structured_uploads_witness :
  let click_ctx := {| args := ["--df"; "a.csv"; "--count"; "2"; "--df"; "b.csv"] |} in
  let t1 := [ImportModule "dir.script"; LoadObjectFromModule "dir.script.my_workflow"] in
  let t2 :=
    (t1 ++ [PlatformConfigAuto; NewSynchronousFlyteClient;
            upload_call; PutData "a.csv" "https://signed/flytesnacks/development/4";
            upload_call; PutData "b.csv" "https://signed/flytesnacks/development/6"])%list in
  let suffix := Some ("scriptmode-" +:+ "abc123" +:+ ".tar.gz") in
  let structured := structured_arguments wf (args click_ctx) in
  exists locations tail1 tail2,
    List.length locations = List.length structured
    /\ t2 = ((t1 ++ [PlatformConfigAuto; NewSynchronousFlyteClient])
             ++ upload_events upload_call structured locations)%list
    /\ (run click_ctx "dir/script.py:my_workflow" true "alpha" "staging" "/root" [] []).2
       = (t2 ++ HashScriptFile "dir/script.py"
             :: CreateUploadLocation "alpha" "staging" suffix :: tail1)%list
    /\ (run click_ctx "dir/script.py:my_workflow" true "beta" "production" "/root" [] []).2
       = (t2 ++ HashScriptFile "dir/script.py"
             :: CreateUploadLocation "beta" "production" suffix :: tail2)%list
    /\ upload_requests tail1 = [] /\ upload_requests tail2 = [].
Proof.
  intros click_ctx t1 t2 suffix structured.
  apply (proj2 (structured_uploads_ignore_project_and_domain click_ctx
                  "dir/script.py:my_workflow" true "/root" [] []
                  "alpha" "staging" "beta" "production")
           "dir/script.py" "my_workflow" wf t1
           (<["df" := VStructuredDataset
                        {| uri := "s3://bucket/flytesnacks/development/6" |}]>
              (<["count" := VInt 2]> ∅))
           t2 "abc123").
  - reflexivity.
  - reflexivity.
  - reflexivity.
  - reflexivity.
  - reflexivity.
  - vm_compute. reflexivity.
  - reflexivity.
Defined.

Lemma positional_argument_witness :
  exists filename workflow_name tail,
    "dir/script.py:my_workflow" = filename +:+ ":" +:+ workflow_name
    /\ split ":" "dir/script.py:my_workflow" = [filename; workflow_name]
    /\ (run {| args := [] |} "dir/script.py:my_workflow" true "p" "d" "/root" [] []).2
       = ([] ++ ImportModule (replace "/" "." (splitext filename).1) :: tail)%list.
Proof.
  apply (positional_argument_validated {| args := [] |} "dir/script.py:my_workflow" true
           "p" "d" "/root" [] []).
  reflexivity.
Defined.

Example run_malformed :
  run {| args := [] |} "a:b:c" true "p" "d" "/root" [] []
  = (Raise (FlyteValidationException "Input a:b:c must be in format '<file.py>:<worfklow>'"),
     [])
  /\ run {| args := [] |} "noColon" true "p" "d" "/root" [] []
     = (Raise (FlyteValidationException
                 "Input noColon must be in format '<file.py>:<worfklow>'"), []).
Proof. split; vm_compute; reflexivity. Qed.

Example run_remote :
  (run {| args := ["--df"; "a.csv"; "--count"; "2"] |} "dir/script.py:my_workflow" true
     "myproject" "staging" "/root" ["img"] []).2
  = [ImportModule "dir.script";
     LoadObjectFromModule "dir.script.my_workflow";
     PlatformConfigAuto;
     NewSynchronousFlyteClient;
     CreateUploadLocation "flytesnacks" "development" None;
     PutData "a.csv" "https://signed/flytesnacks/development/4";
     HashScriptFile "dir/script.py";
     CreateUploadLocation "myproject" "staging" (Some "scriptmode-abc123.tar.gz");
     ConfigAuto;
     NewFlyteRemote "myproject" "staging";
     RegisterWorkflowScriptMode "my_workflow"
       {| image_config := Some ["img"];
          fast_serialization_settings :=
            Some {| enabled := true;
                    destination_dir := "/root";
                    distribution_location := "s3://bucket/myproject/staging/7" |} |}
       "abc123" "https://signed/myproject/staging/7";
     Execute "my_workflow@abc123"
       (<["df" := VStructuredDataset {| uri := "s3://bucket/flytesnacks/development/4" |}]>
          (<["count" := VInt 2]> ∅))
       "myproject" "staging" true;
     PrintOut "execution of my_workflow@abc123"].
Proof. vm_compute. reflexivity. Qed.

Example run_local :
  run {| args := [] |} "script.py:my_workflow" false "p" "d" "/root" [] []
  = (Raise (UnboundLocalError "wf"),
     [ImportModule "script"; LoadObjectFromModule "script.my_workflow"]).
Proof. vm_compute. reflexivity. Qed.

End Instances.

(** ** Further properties of the argument resolution *)

Section ResolutionFurther.
Context {LiteralType : Type} `{!Collaborators LiteralType}.
Variable wf_entity : WorkflowBase LiteralType.
Variable create_upload_location_fn : M CreateUploadLocationResponse.

Local Abbreviation resolve tokens :=
  (_parse_workflow_inputs {| args := tokens |} wf_entity create_upload_location_fn).
Local Abbreviation pair_ := (resolve_pair wf_entity create_upload_location_fn).
Local Abbreviation pairs_ := (resolve_pairs wf_entity create_upload_location_fn).

Lemma resolve_pairs_keys tokens : forall a0 t a t',
  pairs_ tokens a0 t = (Ok a, t') ->
  Nat.even (List.length tokens) = true
  /\ dom a = list_to_set (provided_names tokens) ∪ dom a0
  /\ Forall (fun k => is_Some (inputs (interface wf_entity) !! k)) (provided_names tokens).
Proof.
  unfold provided_names.
  induction tokens as [|x|flag value rest IH] using list_pair_ind; intros a0 t a t' Hres.
  - injection Hres as <- <-. split; [reflexivity|]. split; [|constructor].
    cbn [pairs map]. rewrite list_to_set_nil. symmetry. apply (left_id_L ∅ (∪)).
  - discriminate.
  - cbn [resolve_pairs] in Hres. rewrite bind_eq in Hres.
    destruct (pair_ a0 flag value t) as [[a1|e] t1] eqn:Hpair; [|discriminate].
    apply IH in Hres as (Heven & Hdom & Hdecl).
    apply (resolve_pair_Ok wf_entity create_upload_location_fn) in Hpair
      as (var & ty & v & Hvar & _ & -> & _).
    split; [exact Heven|]. split.
    + rewrite Hdom, dom_insert_L. cbn [pairs map fst]. rewrite list_to_set_cons.
      rewrite !(assoc_L (∪)). f_equal. apply (comm_L (∪)).
    + cbn [pairs map fst]. constructor; [rewrite Hvar; eauto | exact Hdecl].
Qed.

(** X1: a resolution that succeeds.  The number of tokens is even, the
    keys of the dict are exactly the names given on the command line (the
    flags without their first two characters), and each of them is an
    input of the workflow. *)
Theorem resolved_keys_are_provided_names tokens t a t' :
  resolve tokens t = (Ok a, t') ->
  Nat.even (List.length tokens) = true
  /\ dom a = list_to_set (provided_names tokens)
  /\ dom a ⊆ dom (inputs (interface wf_entity)).
Proof.
  intros Hres. rewrite parse_as_pairs in Hres. cbn [args] in Hres.
  apply resolve_pairs_keys in Hres as (Heven & Hdom & Hdecl).
  rewrite dom_empty_L, (right_id_L ∅ (∪)) in Hdom.
  split; [exact Heven|]. split; [exact Hdom|].
  rewrite Hdom. intros k Hk. apply elem_of_list_to_set in Hk.
  apply elem_of_dom. rewrite Forall_forall in Hdecl. auto.
Qed.

Lemma resolve_pairs_typed tokens : forall a0 t a t',
  typed_as_declared wf_entity a0 -> pairs_ tokens a0 t = (Ok a, t') ->
  typed_as_declared wf_entity a.
Proof.
  induction tokens as [|x|flag value rest IH] using list_pair_ind;
    intros a0 t a t' Htyped Hres.
  - injection Hres as <- <-. exact Htyped.
  - discriminate.
  - cbn [resolve_pairs] in Hres. rewrite bind_eq in Hres.
    destruct (pair_ a0 flag value t) as [[a1|e] t1] eqn:Hpair; [|discriminate].
    apply (IH a1 t1 a t'); [|exact Hres].
    apply (resolve_pair_Ok wf_entity create_upload_location_fn) in Hpair
      as (var & ty & v & Hvar & Hty & -> & Hcase).
    intros argument v' Hlookup.
    destruct (decide (slice_from 2 flag = argument)) as [<-|Hne].
    + rewrite lookup_insert_eq in Hlookup. injection Hlookup as <-.
      exists var. split; [exact Hvar|].
      destruct Hcase as [(-> & -> & _) | [(-> & (n & _ & ->) & _) | (-> & d & _ & _ & -> & _)]];
        exact Hty.
    + rewrite lookup_insert_ne in Hlookup by exact Hne. apply Htyped. exact Hlookup.
Qed.

(** X2: a resolution that succeeds maps every name to a value of the
    Python type its declared type maps to: a [str] for a text input, an
    [int] for an integer one, a [StructuredDataset] for a structured
    dataset. *)
Theorem resolved_values_have_declared_type tokens t a t' argument v :
  resolve tokens t = (Ok a, t') ->
  a !! argument = Some v ->
  exists var,
    inputs (interface wf_entity) !! argument = Some var
    /\ guess_python_type (type var) = Ok (type_of_value v).
Proof.
  intros Hres Hlookup. rewrite parse_as_pairs in Hres. cbn [args] in Hres.
  apply (resolve_pairs_typed tokens ∅ t a t'); [|exact Hres|exact Hlookup].
  intros k w Hk. rewrite lookup_empty in Hk. discriminate.
Qed.

Lemma resolve_pair_frame a b flag value t :
  pair_ (a ∪ b) flag value t
  = match pair_ a flag value t with
    | (Ok m, t') => (Ok (m ∪ b), t')
    | (Raise e, t') => (Raise e, t')
    end.
Proof.
  unfold resolve_pair. rewrite !bind_eq. unfold lift, dict_getitem.
  destruct (inputs (interface wf_entity) !! slice_from 2 flag) as [var|]; [|reflexivity].
  rewrite !bind_eq.
  destruct (guess_python_type (type var)) as [ty|e]; [|reflexivity].
  rewrite !bind_eq.
  destruct ty.
  - simpl. rewrite insert_union_l. reflexivity.
  - rewrite !bind_eq. unfold py_int.
    destruct (int (int_max_str_digits t) value); simpl; [|reflexivity].
    rewrite insert_union_l. reflexivity.
  - rewrite !bind_eq.
    destruct (create_upload_location_fn t) as [[d|e] t0]; [|reflexivity].
    rewrite !bind_eq. unfold call.
    destruct (put_data t0 value (signed_url d)); simpl; [|reflexivity].
    rewrite insert_union_l. reflexivity.
  - reflexivity.
Qed.

Lemma resolve_pairs_frame tokens : forall a b t,
  pairs_ tokens (a ∪ b) t
  = match pairs_ tokens a t with
    | (Ok m, t') => (Ok (m ∪ b), t')
    | (Raise e, t') => (Raise e, t')
    end.
Proof.
  induction tokens as [|x|flag value rest IH] using list_pair_ind; intros a b t.
  - reflexivity.
  - reflexivity.
  - cbn [resolve_pairs]. rewrite !bind_eq, resolve_pair_frame.
    destruct (pair_ a flag value t) as [[a1|e] t1]; [|reflexivity].
    apply IH.
Qed.

(** X3: resolving a token list in two parts.  When the first part has an
    even number of tokens, resolving the whole list is resolving the first
    part and then the second from the trace the first has left; the dict
    is the union of the two, the entries of the second part replacing
    those of the first; a failure of either part is the failure of the
    whole. *)
Theorem resolve_concatenation pre rest t :
  Nat.even (List.length pre) = true ->
  resolve (pre ++ rest) t
  = match resolve pre t with
    | (Ok m1, t1) =>
        match resolve rest t1 with
        | (Ok m2, t2) => (Ok (m2 ∪ m1), t2)
        | (Raise e, t2) => (Raise e, t2)
        end
    | (Raise e, t1) => (Raise e, t1)
    end.
Proof.
  intros Heven. rewrite !parse_as_pairs. cbn [args].
  rewrite resolve_pairs_app by exact Heven.
  destruct (pairs_ pre ∅ t) as [[m1|e] t1]; [|reflexivity].
  rewrite parse_as_pairs. cbn [args].
  rewrite <- (left_id_L ∅ (∪) m1) at 1. apply resolve_pairs_frame.
Qed.

(** What one pair leaves in the trace, whatever its outcome. *)
Lemma resolve_pair_trace upload_call a flag value t :
  (forall t0, (create_upload_location_fn t0).2 = (t0 ++ [upload_call])%list) ->
  let t1 := (pair_ a flag value t).2 in
  t1 = t \/ t1 = (t ++ [upload_call])%list
  \/ exists remote_path, t1 = (t ++ [upload_call; PutData value remote_path])%list.
Proof.
  intros Hfn. unfold resolve_pair. rewrite !bind_eq. unfold lift, dict_getitem.
  destruct (inputs (interface wf_entity) !! slice_from 2 flag) as [var|]; [|auto].
  rewrite !bind_eq.
  destruct (guess_python_type (type var)) as [ty|e]; [|auto].
  rewrite !bind_eq.
  destruct ty.
  - auto.
  - rewrite !bind_eq. unfold py_int. destruct (int (int_max_str_digits t) value); auto.
  - rewrite !bind_eq. specialize (Hfn t).
    destruct (create_upload_location_fn t) as [[d|e] t0]; simpl in Hfn; subst t0; [|auto].
    rewrite !bind_eq. unfold call.
    right. right. exists (signed_url d).
    destruct (put_data _ value (signed_url d)); simpl; rewrite <- app_assoc; reflexivity.
  - auto.
Qed.

Lemma resolve_pairs_partial upload_call :
  (forall t0, (create_upload_location_fn t0).2 = (t0 ++ [upload_call])%list) ->
  forall tokens a t,
  exists done locations unfinished,
    done `prefix_of` structured_arguments wf_entity tokens
    /\ List.length locations = List.length done
    /\ (pairs_ tokens a t).2
       = (t ++ upload_events upload_call done locations ++ unfinished)%list
    /\ (unfinished = [] \/ unfinished = [upload_call]
        \/ exists local_path remote_path,
             unfinished = [upload_call; PutData local_path remote_path]).
Proof.
  intros Hfn tokens.
  induction tokens as [|x|flag value rest IH] using list_pair_ind; intros a t.
  - exists [], [], []. split; [apply prefix_nil|]. split; [reflexivity|].
    split; [|auto]. simpl. rewrite app_nil_r. reflexivity.
  - exists [], [], []. split; [apply prefix_nil|]. split; [reflexivity|].
    split; [|auto]. simpl. rewrite app_nil_r. reflexivity.
  - cbn [resolve_pairs]. rewrite bind_eq.
    destruct (pair_ a flag value t) as [[a1|e] t1] eqn:Hpair.
    + destruct (IH a1 t1) as (done & locations & unfinished & Hprefix & Hlen & -> & Hlast).
      apply (resolve_pair_Ok wf_entity create_upload_location_fn) in Hpair
        as (var & ty & v & Hvar & Hty & _ & Hcase).
      rewrite structured_arguments_cons, (declared_type_Some _ _ _ _ Hvar Hty).
      destruct Hcase as [(-> & _ & ->) | [(-> & _ & ->) | (-> & d & _ & _ & _ & ->)]].
      * exists done, locations, unfinished. auto.
      * exists done, locations, unfinished. auto.
      * exists ((slice_from 2 flag, value) :: done), (d :: locations), unfinished.
        split; [apply prefix_cons; exact Hprefix|]. split; [simpl; congruence|].
        split; [|exact Hlast].
        rewrite Hfn. unfold upload_events. cbn [zip zip_with flat_map].
        rewrite <- !app_assoc. reflexivity.
    + pose proof (resolve_pair_trace upload_call a flag value t Hfn) as Htrace.
      rewrite Hpair in Htrace. cbn [snd] in Htrace.
      destruct Htrace as [-> | [-> | (remote_path & ->)]].
      * exists [], [], []. split; [apply prefix_nil|]. split; [reflexivity|].
        split; [|auto]. simpl. rewrite app_nil_r. reflexivity.
      * exists [], [], [upload_call]. split; [apply prefix_nil|]. split; [reflexivity|].
        split; [reflexivity|auto].
      * exists [], [], [upload_call; PutData value remote_path].
        split; [apply prefix_nil|]. split; [reflexivity|].
        split; [reflexivity|]. right. right. eauto.
Qed.

(** X4: no rollback.  Whatever the outcome of a resolution, what it has
    added to the trace is the complete uploads (a call of the factory, then
    the transfer) of a leading part of the structured-dataset arguments, in
    the order of the tokens, followed by at most one upload left
    unfinished; nothing of it is undone when the resolution raises. *)
Theorem uploads_are_not_rolled_back upload_call tokens t :
  (forall t0, (create_upload_location_fn t0).2 = (t0 ++ [upload_call])%list) ->
  exists done locations unfinished,
    done `prefix_of` structured_arguments wf_entity tokens
    /\ List.length locations = List.length done
    /\ (resolve tokens t).2
       = (t ++ upload_events upload_call done locations ++ unfinished)%list
    /\ (unfinished = [] \/ unfinished = [upload_call]
        \/ exists local_path remote_path,
             unfinished = [upload_call; PutData local_path remote_path]).
Proof.
  intros Hfn. rewrite parse_as_pairs. cbn [args].
  apply resolve_pairs_partial. exact Hfn.
Qed.

(** X5: failures of the collaborators are not handled.  At a pair of
    structured-dataset type, an exception of the upload factory is the
    exception of the resolution, raised before any transfer; an exception
    of the file transfer is the exception of the resolution, and the
    location acquired for it is left behind. *)
Theorem collaborator_failure_propagates upload_call pre flag value rest a t t' var e :
  (forall t0, (create_upload_location_fn t0).2 = (t0 ++ [upload_call])%list) ->
  Nat.even (List.length pre) = true ->
  resolve pre t = (Ok a, t') ->
  inputs (interface wf_entity) !! slice_from 2 flag = Some var ->
  guess_python_type (type var) = Ok PyStructuredDataset ->
  ((create_upload_location_fn t').1 = Raise e ->
   resolve (pre ++ flag :: value :: rest) t = (Raise e, (t' ++ [upload_call])%list))
  /\ (forall d,
        (create_upload_location_fn t').1 = Ok d ->
        put_data (t' ++ [upload_call])%list value (signed_url d) = Raise e ->
        resolve (pre ++ flag :: value :: rest) t
        = (Raise e, (t' ++ [upload_call; PutData value (signed_url d)])%list)).
Proof.
  intros Hfn Heven Hpre Hvar Hty.
  assert (Hstep : resolve (pre ++ flag :: value :: rest) t
    = match (let* df_remote_location := create_upload_location_fn in
             let* _ := call (PutData value (signed_url df_remote_location))
                         (fun t0 => put_data t0 value (signed_url df_remote_location)) in
             ret (VStructuredDataset {| uri := native_url df_remote_location |}))%py t' with
      | (Ok v, t'') => pairs_ rest (<[slice_from 2 flag := v]> a) t''
      | (Raise e', t'') => (Raise e', t'')
      end).
  { rewrite (resolve_next_pair _ _ _ _ _ _ _ _ _ Heven Hpre).
    unfold resolve_pair. rewrite bind_eq. unfold lift, dict_getitem.
    rewrite Hvar. rewrite bind_eq, Hty. rewrite bind_eq.
    destruct (bind create_upload_location_fn _ t') as [[v|e'] t'']; reflexivity. }
  specialize (Hfn t'). rewrite Hstep, bind_eq.
  destruct (create_upload_location_fn t') as [r t0]. simpl in Hfn. subst t0.
  split.
  - simpl. intros ->. reflexivity.
  - simpl. intros d -> Hput. rewrite bind_eq. unfold call. rewrite Hput.
    rewrite <- app_assoc. reflexivity.
Qed.

Lemma resolve_pair_flag_tail a flag flag' value t :
  slice_from 2 flag = slice_from 2 flag' ->
  pair_ a flag value t = pair_ a flag' value t.
Proof. intros Htail. unfold resolve_pair. rewrite Htail. reflexivity. Qed.

(** X6: the first two characters of a flag are dropped unread.  Two lists
    of pairs whose flags agree from the third character on, with the same
    values, resolve to the same outcome with the same trace: nothing checks
    that a flag starts with two dashes. *)
Theorem flag_prefix_is_not_inspected ps ps' t :
  Forall2 (fun p p' => slice_from 2 p.1 = slice_from 2 p'.1 /\ p.2 = p'.2) ps ps' ->
  resolve (tokens_of ps) t = resolve (tokens_of ps') t.
Proof.
  intros Hsame. rewrite !parse_as_pairs. cbn [args].
  generalize (∅ : gmap string py_value) as a. revert t.
  induction Hsame as [|[flag value] [flag' value'] ps ps' [Htail Hvalue] _ IH]; intros t a.
  - reflexivity.
  - cbn [fst snd] in Htail, Hvalue. subst value'.
    unfold tokens_of. cbn [flat_map fst snd app resolve_pairs].
    rewrite !bind_eq, (resolve_pair_flag_tail a flag flag' value t Htail).
    destruct (pair_ a flag' value t) as [[a1|e] t1]; [|reflexivity].
    apply IH.
Qed.

Lemma pairs_tokens_of ps : pairs (tokens_of ps) = ps.
Proof.
  induction ps as [|[flag value] ps IH]; [reflexivity|].
  unfold tokens_of in *. cbn [flat_map fst snd app pairs]. rewrite IH. reflexivity.
Qed.

Lemma even_length_tokens_of ps : Nat.even (List.length (tokens_of ps)) = true.
Proof.
  induction ps as [|[flag value] ps IH]; [reflexivity|].
  unfold tokens_of in *. cbn [flat_map fst snd app]. exact IH.
Qed.

Lemma filter_name_NoDup argument (ps : list (string * string)) :
  NoDup (map (fun p => slice_from 2 p.1) ps) ->
  (List.length (filter (fun p => slice_from 2 p.1 = argument) ps) <= 1)%nat.
Proof.
  induction ps as [|p ps IH]; intros Hnodup; [simpl; lia|].
  cbn [map] in Hnodup. apply NoDup_cons in Hnodup as [Hfresh Hnodup].
  rewrite filter_cons. case_decide as Hname; [|auto].
  assert (Hnone : filter (fun p => slice_from 2 p.1 = argument) ps = []).
  { destruct (filter (fun p => slice_from 2 p.1 = argument) ps) as [|q l] eqn:Hfilter;
      [reflexivity|].
    assert (Hq : q ∈ filter (fun p => slice_from 2 p.1 = argument) ps)
      by (rewrite Hfilter; left).
    apply list_elem_of_filter in Hq as [Hqname Hq].
    exfalso. apply Hfresh. rewrite Hname, <- Hqname.
    apply list_elem_of_In, (in_map (fun p => slice_from 2 p.1)), list_elem_of_In. exact Hq. }
  rewrite Hnone. simpl. lia.
Qed.

Lemma last_value_permutation argument ps ps' :
  ps ≡ₚ ps' ->
  NoDup (map (fun p => slice_from 2 p.1) ps) ->
  last_value argument (tokens_of ps) = last_value argument (tokens_of ps').
Proof.
  intros Hperm Hnodup. unfold last_value. rewrite !pairs_tokens_of.
  pose proof (filter_name_NoDup argument ps Hnodup) as Hlen.
  assert (Hfilter : filter (fun p => slice_from 2 p.1 = argument) ps
                    ≡ₚ filter (fun p => slice_from 2 p.1 = argument) ps')
    by (rewrite Hperm; reflexivity).
  destruct (filter (fun p => slice_from 2 p.1 = argument) ps) as [|p [|q l]].
  - apply Permutation_nil_l in Hfilter as <-. reflexivity.
  - apply Permutation_singleton_l in Hfilter as <-. reflexivity.
  - simpl in Hlen. lia.
Qed.

(** X7: the order of the pairs does not matter for text and integer
    arguments given once each.  Two lists of the same pairs in different
    orders, with no name given twice, all of types that map to [str] or
    [int] and with integers that are literals within the limit of the
    interpreter on the number of digits, resolve to the same dict. *)
Theorem text_and_integer_order_is_irrelevant ps ps' t :
  ps ≡ₚ ps' ->
  NoDup (map (fun p => slice_from 2 p.1) ps) ->
  text_or_integer wf_entity (tokens_of ps) ->
  integers_readable wf_entity (int_max_str_digits t) (tokens_of ps) ->
  exists m,
    resolve (tokens_of ps) t = (Ok m, t) /\ resolve (tokens_of ps') t = (Ok m, t).
Proof.
  intros Hperm Hnodup Htypes Hints.
  assert (Htypes' : text_or_integer wf_entity (tokens_of ps')).
  { unfold text_or_integer in *. rewrite pairs_tokens_of in *.
    rewrite <- Hperm. exact Htypes. }
  assert (Hints' : integers_readable wf_entity (int_max_str_digits t) (tokens_of ps')).
  { unfold integers_readable in *. rewrite pairs_tokens_of in *.
    rewrite <- Hperm. exact Hints. }
  destruct (resolve_pairs_text_or_integer wf_entity create_upload_location_fn
              (tokens_of ps) ∅ t (even_length_tokens_of ps) Htypes Hints)
    as (m & Hres & _ & Hlookup).
  destruct (resolve_pairs_text_or_integer wf_entity create_upload_location_fn
              (tokens_of ps') ∅ t (even_length_tokens_of ps') Htypes' Hints')
    as (m' & Hres' & _ & Hlookup').
  exists m. rewrite !parse_as_pairs. cbn [args]. split; [exact Hres|].
  rewrite Hres'. f_equal. f_equal. apply map_eq. intros argument.
  rewrite Hlookup, Hlookup', (last_value_permutation argument ps ps' Hperm Hnodup).
  reflexivity.
Qed.

Lemma scan_all_digits s : forall acc digits,
  all_digits s = true ->
  scan_digits s false acc digits
  = Some (decimal_from acc s, (digits + String.length s)%nat, EmptyString).
Proof.
  induction s as [|c s IH]; intros acc digits Hdigits.
  - cbn [scan_digits decimal_from String.length]. rewrite Nat.add_0_r. reflexivity.
  - cbn [all_digits] in Hdigits. apply andb_true_iff in Hdigits as [Hc Hs].
    cbn [scan_digits decimal_from String.length].
    replace (digits + S (String.length s))%nat with (S digits + String.length s)%nat
      by lia.
    destruct c as [[] [] [] [] [] [] [] []]; try discriminate Hc;
      apply (IH _ _ Hs).
Qed.

Lemma skip_spaces_non_space c s :
  is_space c = false -> skip_spaces (String c s) = String c s.
Proof. intros Hc. cbn [skip_spaces]. rewrite Hc. reflexivity. Qed.

(** What the start of the reading gives on decimal digits, with and
    without a minus sign. *)
Lemma read_digits_decimal digits :
  digits <> EmptyString -> all_digits digits = true ->
  read_digits digits
  = Some (1, digits, decimal_value digits, String.length digits, EmptyString)
  /\ read_digits ("-" +:+ digits)
     = Some (-1, digits, decimal_value digits, String.length digits, EmptyString).
Proof.
  intros Hne Hdigits. destruct digits as [|c s]; [congruence|].
  change ("-" +:+ String c s) with (String "-" (String c s)).
  pose proof Hdigits as Hall.
  cbn [all_digits] in Hdigits. apply andb_true_iff in Hdigits as [Hc Hs].
  pose proof (scan_all_digits (String c s) 0 0 Hall) as Hscan.
  fold (decimal_value (String c s)) in Hscan. rewrite Nat.add_0_l in Hscan.
  destruct c as [[] [] [] [] [] [] [] []]; try discriminate Hc.
  all: split; unfold read_digits;
    rewrite !skip_spaces_non_space by reflexivity; cbv beta iota;
    rewrite Hscan; reflexivity.
Qed.

Lemma int_decimal max_str_digits digits :
  digits <> EmptyString -> all_digits digits = true ->
  exceeds_max_str_digits max_str_digits (String.length digits) = false ->
  int max_str_digits digits = Ok (decimal_value digits)
  /\ int max_str_digits ("-" +:+ digits) = Ok (- decimal_value digits).
Proof.
  intros Hne Hdigits Hlimit.
  destruct (read_digits_decimal digits Hne Hdigits) as [Hplus Hminus].
  unfold int. rewrite Hplus, Hminus, Hlimit.
  destruct digits as [|c s]; [congruence|].
  cbn [String.length Nat.eqb skip_spaces]. split; f_equal; lia.
Qed.

(** X12: an integer written in decimal.  At a pair whose declared type
    maps to [int], a value made of one or more decimal digits, no more of
    them than the limit of the interpreter allows, is stored as the number
    they denote in base ten, leading zeros included, and the same digits
    after a minus sign as its opposite. *)
Theorem decimal_integer_argument pre flag digits a t t' var :
  Nat.even (List.length pre) = true ->
  resolve pre t = (Ok a, t') ->
  inputs (interface wf_entity) !! slice_from 2 flag = Some var ->
  guess_python_type (type var) = Ok PyInt ->
  digits <> EmptyString ->
  all_digits digits = true ->
  exceeds_max_str_digits (int_max_str_digits t') (String.length digits) = false ->
  resolve (pre ++ [flag; digits]) t
  = (Ok (<[slice_from 2 flag := VInt (decimal_value digits)]> a), t')
  /\ resolve (pre ++ [flag; "-" +:+ digits]) t
     = (Ok (<[slice_from 2 flag := VInt (- decimal_value digits)]> a), t').
Proof.
  intros Heven Hpre Hvar Hty Hne Hdigits Hlimit.
  destruct (int_decimal _ digits Hne Hdigits Hlimit) as [Hplus Hminus].
  assert (Hstep : forall value n,
    int (int_max_str_digits t') value = Ok n ->
    resolve (pre ++ [flag; value]) t = (Ok (<[slice_from 2 flag := VInt n]> a), t')).
  { intros value n Hn. rewrite (resolve_next_pair _ _ _ _ _ _ _ _ _ Heven Hpre).
    unfold resolve_pair. rewrite bind_eq. unfold lift, dict_getitem.
    rewrite Hvar. rewrite bind_eq, Hty. rewrite !bind_eq. unfold py_int. rewrite Hn.
    reflexivity. }
  split; apply Hstep; assumption.
Qed.

End ResolutionFurther.

(** ** The module name of a script *)

Lemma append_String c s1 s2 : String c s1 +:+ s2 = String c (s1 +:+ s2).
Proof. reflexivity. Qed.

Lemma append_empty s : EmptyString +:+ s = s.
Proof. reflexivity. Qed.

Lemma rfind_from_app c s1 : forall s2 i found,
  rfind_from c (s1 +:+ s2) i found
  = rfind_from c s2 (i + Z.of_nat (String.length s1)) (rfind_from c s1 i found).
Proof.
  induction s1 as [|c' s1 IH]; intros s2 i found.
  - rewrite append_empty. simpl. rewrite Z.add_0_r. reflexivity.
  - rewrite append_String. cbn [rfind_from String.length]. rewrite IH. f_equal. lia.
Qed.

Lemma rfind_from_absent c s : forall i found,
  count c s = 0%nat -> rfind_from c s i found = found.
Proof.
  induction s as [|c' s IH]; intros i found Hcount; [reflexivity|].
  cbn [count rfind_from] in *. destruct (Ascii.eqb c' c); [discriminate|].
  apply IH. exact Hcount.
Qed.

Lemma rfind_from_bounds c s : forall i found,
  found < i -> found <= rfind_from c s i found < i + Z.of_nat (String.length s).
Proof.
  induction s as [|c' s IH]; intros i found Hlt.
  - simpl. lia.
  - cbn [rfind_from String.length]. destruct (Ascii.eqb c' c).
    + specialize (IH (i + 1) i). lia.
    + specialize (IH (i + 1) found). lia.
Qed.

Lemma count_app c s1 s2 : count c (s1 +:+ s2) = (count c s1 + count c s2)%nat.
Proof.
  induction s1 as [|c' s1 IH]; [reflexivity|].
  rewrite append_String. cbn [count]. rewrite IH. lia.
Qed.

Lemma slice_to_app s1 s2 : slice_to (String.length s1) (s1 +:+ s2) = s1.
Proof.
  induction s1 as [|c s1 IH]; [reflexivity|].
  rewrite append_String. cbn [String.length slice_to]. rewrite IH. reflexivity.
Qed.

Lemma slice_from_app s1 s2 : slice_from (String.length s1) (s1 +:+ s2) = s2.
Proof.
  induction s1 as [|c s1 IH]; [reflexivity|].
  rewrite append_String. cbn [String.length slice_from]. exact IH.
Qed.

Lemma character_of_other_kind c s s' : forall k,
  count c s = 0%nat -> (k < String.length s)%nat ->
  String.eqb (slice_to 1 (slice_from k (s +:+ s'))) (String c EmptyString) = false.
Proof.
  induction s as [|c' s IH]; intros k Hcount Hk; [simpl in Hk; lia|].
  cbn [count] in Hcount. destruct (Ascii.eqb c' c) eqn:Hc; [discriminate|].
  rewrite append_String. destruct k as [|k].
  - cbn [slice_from slice_to String.eqb]. rewrite Hc. reflexivity.
  - cbn [slice_from]. apply IH; [exact Hcount | simpl in Hk; lia].
Qed.

(** [os.path.splitext] on a path whose stem has no dot and a last
    component that is not empty, with an extension without dot or
    separator: the stem and the extension. *)
Lemma splitext_stem stem ext :
  count "." stem = 0%nat ->
  rfind "/" stem + 1 < Z.of_nat (String.length stem) ->
  count "." ext = 0%nat -> count "/" ext = 0%nat ->
  splitext (stem +:+ "." +:+ ext) = (stem, "." +:+ ext).
Proof.
  intros Hstem Hlast Hext Hsep. unfold splitext.
  change ("." +:+ ext) with (String "." ext).
  assert (Hdot : rfind "." (stem +:+ String "." ext) = Z.of_nat (String.length stem)).
  { unfold rfind. rewrite rfind_from_app. cbn [rfind_from].
    rewrite Ascii.eqb_refl. apply rfind_from_absent. exact Hext. }
  assert (Hslash : rfind "/" (stem +:+ String "." ext) = rfind "/" stem).
  { unfold rfind. rewrite rfind_from_app. cbn [rfind_from].
    replace (Ascii.eqb "." "/") with false by reflexivity.
    apply rfind_from_absent. exact Hsep. }
  rewrite Hdot, Hslash.
  pose proof (rfind_from_bounds "/" stem 0 (-1) ltac:(lia)) as Hbounds.
  fold (rfind "/" stem) in Hbounds.
  replace (rfind "/" stem <? Z.of_nat (String.length stem)) with true
    by (symmetry; apply Z.ltb_lt; lia).
  assert (Hfuel : exists fuel, String.length (stem +:+ String "." ext) = S fuel).
  { destruct stem; [simpl in Hlast; lia|]. rewrite append_String. simpl. eauto. }
  destruct Hfuel as [fuel ->]. cbn [all_dots_between].
  replace (rfind "/" stem + 1 <? Z.of_nat (String.length stem)) with true
    by (symmetry; apply Z.ltb_lt; lia).
  rewrite (character_of_other_kind "." stem) by (auto; lia).
  cbn [andb negb]. rewrite Nat2Z.id.
  rewrite slice_to_app, slice_from_app. reflexivity.
Qed.

Lemma split_at_separator sep a b :
  count sep a = 0%nat -> count sep b = 0%nat ->
  split sep (a +:+ String sep b) = [a; b].
Proof.
  intros Ha Hb. induction a as [|c a IH].
  - rewrite append_empty. cbn [split].
    rewrite Ascii.eqb_refl, (split_no_separator _ _ Hb). reflexivity.
  - cbn [count] in Ha. rewrite append_String. cbn [split].
    destruct (Ascii.eqb c sep); [discriminate|]. rewrite (IH Ha). reflexivity.
Qed.

(** ** Further properties of the command *)

Section CommandFurther.
Context {LiteralType : Type} `{!Collaborators LiteralType}.

(** X8: a remote run that succeeds.  The argument has one colon, and
    every collaborator has answered, each from the trace the run had
    reached: the import and the load gave the workflow, the client was set
    up, the arguments were resolved against that workflow, the hash of the
    script gave the version, the service gave the location of the archive
    for the user's project and domain and the suffix made of the version,
    the remote was set up, the registration of that workflow, with the
    version, the native URL of the location as distribution location and
    its signed URL as presigned URL, gave the registered workflow, and its
    execution on the resolved inputs, with the user's project and domain
    and [wait=True], gave the execution that is printed.  The trace is
    these calls in this order, each made once. *)
Theorem successful_remote_run click_ctx file_and_workflow project domain destination_dir
    image_config t t' :
  run click_ctx file_and_workflow true project domain destination_dir image_config t
  = (Ok tt, t') ->
  exists filename workflow_name wf_entity inputs_ resolution version location wf execution,
    let module := replace "/" "." (splitext filename).1 in
    let object_name := module +:+ "." +:+ workflow_name in
    let loaded :=
      [ImportModule module; LoadObjectFromModule object_name;
       PlatformConfigAuto; NewSynchronousFlyteClient] in
    let resolved := (t ++ loaded ++ resolution)%list in
    let suffix := Some ("scriptmode-" +:+ version +:+ ".tar.gz") in
    let settings :=
      {| image_config := Some image_config;
         fast_serialization_settings :=
           Some {| enabled := true;
                   destination_dir := destination_dir;
                   distribution_location := native_url location |} |} in
    split ":" file_and_workflow = [filename; workflow_name]
    /\ import_module t module = Ok tt
    /\ load_object_from_module (t ++ [ImportModule module])%list object_name
       = Ok wf_entity
    /\ platform_config_auto
         (t ++ [ImportModule module; LoadObjectFromModule object_name])%list = Ok tt
    /\ new_synchronous_flyte_client
         (t ++ [ImportModule module; LoadObjectFromModule object_name;
                PlatformConfigAuto])%list = Ok tt
    /\ _parse_workflow_inputs click_ctx wf_entity
         (create_upload_location "flytesnacks" "development" None) (t ++ loaded)%list
       = (Ok inputs_, resolved)
    /\ hash_script_file resolved filename = Ok version
    /\ client_create_upload_location (resolved ++ [HashScriptFile filename])%list
         project domain suffix = Ok location
    /\ config_auto
         (resolved ++ [HashScriptFile filename;
                       CreateUploadLocation project domain suffix])%list = Ok tt
    /\ new_flyte_remote
         (resolved ++ [HashScriptFile filename;
                       CreateUploadLocation project domain suffix; ConfigAuto])%list
         project domain = Ok tt
    /\ register_workflow_script_mode
         (resolved ++ [HashScriptFile filename;
                       CreateUploadLocation project domain suffix; ConfigAuto;
                       NewFlyteRemote project domain])%list
         (name wf_entity) settings version (signed_url location) = Ok wf
    /\ execute
         (resolved ++ [HashScriptFile filename;
                       CreateUploadLocation project domain suffix; ConfigAuto;
                       NewFlyteRemote project domain;
                       RegisterWorkflowScriptMode (name wf_entity) settings version
                         (signed_url location)])%list
         wf inputs_ project domain true = Ok execution
    /\ t' = (resolved
               ++ [HashScriptFile filename;
                   CreateUploadLocation project domain suffix;
                   ConfigAuto;
                   NewFlyteRemote project domain;
                   RegisterWorkflowScriptMode (name wf_entity) settings version
                     (signed_url location);
                   Execute wf inputs_ project domain true;
                   PrintOut execution])%list.
Proof.
  intros Hrun. unfold run in Hrun.
  destruct (split ":" file_and_workflow) as [|filename [|workflow_name [|c l]]] eqn:Hsplit;
    try discriminate.
  cbn zeta in Hrun.
  unfold _load_naive_entity, create_upload_location, bind, call in Hrun.
  repeat match type of Hrun with
         | context [match ?x with _ => _ end] =>
             destruct x eqn:?; try discriminate Hrun
         end.
  match goal with
  | H : match import_module ?tr ?m with _ => _ end = _ |- _ =>
      destruct (import_module tr m) as [[]|] eqn:Himport; [|discriminate H];
      injection H as Hload <-
  end.
  subst.
  match goal with
  | H : _parse_workflow_inputs _ ?w ?f _ = (Ok _, _) |- _ =>
      destruct (logs_inv (fun _ => True) _ _ _ _
                  (logs_parse_workflow_inputs _ click_ctx w f
                     (logs_call _ _ _ I) (fun _ _ => I)) H)
        as (resolution & -> & _)
  end.
  injection Hrun as <-.
  repeat match goal with u : unit |- _ => destruct u end.
  rewrite <- ?app_assoc in *. cbn [app] in *.
  match goal with
  | Hparse : _parse_workflow_inputs _ ?w _ _ = (Ok ?i, _),
    Hhash : hash_script_file _ _ = Ok ?v,
    Hlocation : client_create_upload_location _ project domain (Some _) = Ok ?d,
    Hregister : register_workflow_script_mode _ _ _ _ _ = Ok ?r,
    Hexecute : execute _ _ _ _ _ _ = Ok ?x |- _ =>
      exists filename, workflow_name, w, i, resolution, v, d, r, x
  end.
  cbn zeta. rewrite <- ?app_assoc. cbn [app].
  repeat (split; [reflexivity || assumption|]).
  reflexivity.
Qed.

(** X9: without [--remote] the command never succeeds.  It raises, after
    at most the import of the module and the load of the workflow: no
    client is set up, no location requested, nothing registered or
    executed; and once the workflow is loaded, the exception is the
    [UnboundLocalError] on [wf]. *)
Theorem local_mode_never_succeeds click_ctx file_and_workflow project domain
    destination_dir image_config t :
  let outcome :=
    run click_ctx file_and_workflow false project domain destination_dir image_config t in
  (exists e, outcome.1 = Raise e)
  /\ (exists more, outcome.2 = (t ++ more)%list /\ Forall module_loading more)
  /\ (forall filename workflow_name wf_entity t1,
        split ":" file_and_workflow = [filename; workflow_name] ->
        _load_naive_entity (replace "/" "." (splitext filename).1) workflow_name t
        = (Ok wf_entity, t1) ->
        outcome = (Raise (UnboundLocalError "wf"), t1)).
Proof.
  intros outcome. subst outcome. unfold run.
  destruct (split ":" file_and_workflow) as [|filename [|workflow_name [|c l]]];
    try (split; [eexists; reflexivity|];
         split; [exists []; split; [symmetry; apply app_nil_r|constructor]|];
         intros; discriminate).
  cbn zeta. rewrite bind_eq.
  assert (Hload : logs module_loading
                    (_load_naive_entity (replace "/" "." (splitext filename).1)
                       workflow_name))
    by (apply logs_load_naive_entity; exact I).
  destruct (_load_naive_entity _ workflow_name t) as [[wf_entity|e] t1] eqn:Hrun;
    destruct (logs_inv _ _ _ _ _ Hload Hrun) as (more & -> & Hmore).
  - split; [eexists; reflexivity|]. split; [exists more; auto|].
    intros f w wf' t1' [= <- <-] Hrun'. rewrite Hrun in Hrun'.
    injection Hrun' as <- <-. reflexivity.
  - split; [eexists; reflexivity|]. split; [exists more; auto|].
    intros f w wf' t1' [= <- <-] Hrun'. rewrite Hrun in Hrun'. discriminate.
Qed.

(** One stage of [run], read off the goal: the action whose trace [Hlogs]
    describes is run, [x] is its result when it succeeds and [more] what it
    has logged. *)
Ltac run_stage Hlogs x more HP :=
  rewrite !bind_eq;
  match type of Hlogs with
  | logs _ ?m =>
      match goal with
      | |- context [m ?t] =>
          let r := fresh "r" in
          let t' := fresh "t" in
          let Hrun := fresh "Hrun" in
          destruct (m t) as [r t'] eqn:Hrun;
          pose proof (logs_inv _ _ _ _ _ Hlogs Hrun) as (more & -> & HP);
          destruct r as [x | ?]; cbv beta iota
      end
  end.

(** X10: nothing is hashed, registered or executed before the arguments
    are resolved.  Either the run raises having logged only the loading of
    the module, the set-up of the client and uploads of arguments, or it is
    a remote run in which the workflow was loaded, the client set up and
    the arguments resolved against that workflow from the trace the run
    had reached, and the run went on from the trace of that resolution. *)
Theorem nothing_registered_unless_inputs_resolved click_ctx file_and_workflow remote
    project domain destination_dir image_config t :
  let outcome :=
    run click_ctx file_and_workflow remote project domain destination_dir image_config t in
  (exists e more, outcome = (Raise e, (t ++ more)%list) /\ Forall before_hashing more)
  \/ (exists filename workflow_name wf_entity t1 inputs_ t2,
        remote = true
        /\ split ":" file_and_workflow = [filename; workflow_name]
        /\ _load_naive_entity (replace "/" "." (splitext filename).1) workflow_name t
           = (Ok wf_entity, t1)
        /\ platform_config_auto t1 = Ok tt
        /\ new_synchronous_flyte_client (t1 ++ [PlatformConfigAuto])%list = Ok tt
        /\ _parse_workflow_inputs click_ctx wf_entity
             (create_upload_location "flytesnacks" "development" None)
             (t1 ++ [PlatformConfigAuto; NewSynchronousFlyteClient])%list
           = (Ok inputs_, t2)
        /\ t2 `prefix_of` outcome.2).
Proof.
  intros outcome. subst outcome.
  destruct (split ":" file_and_workflow) as [|filename [|workflow_name [|c l]]] eqn:Hsplit;
    try (left; unfold run; rewrite Hsplit; eexists; exists []; rewrite app_nil_r;
         split; [reflexivity|constructor]).
  assert (Hlogs : logs before_hashing
                    (_load_naive_entity (replace "/" "." (splitext filename).1)
                       workflow_name))
    by (apply logs_load_naive_entity; exact I).
  destruct (_load_naive_entity (replace "/" "." (splitext filename).1) workflow_name t)
    as [[wf_entity|e] t1] eqn:Hload;
    destruct (logs_inv _ _ _ _ _ Hlogs Hload) as (more1 & Ht1 & HP1).
  2: { left. rewrite (run_load_fails _ _ _ _ _ _ _ _ _ _ _ _ Hsplit Hload).
       subst t1. eauto. }
  destruct remote.
  2: { left. rewrite (run_without_remote _ _ _ _ _ _ _ _ _ _ _ Hsplit Hload).
       subst t1. eauto. }
  destruct (platform_config_auto t1) as [[]|e] eqn:Hconfig.
  2: { left. rewrite (run_config_fails _ _ _ _ _ _ _ _ _ _ _ _ Hsplit Hload Hconfig).
       subst t1. eexists. exists (more1 ++ [PlatformConfigAuto])%list.
       rewrite app_assoc. split; [reflexivity|].
       apply Forall_app. split; [exact HP1|]. repeat constructor. }
  destruct (new_synchronous_flyte_client (t1 ++ [PlatformConfigAuto])%list)
    as [[]|e] eqn:Hclient.
  2: { left.
       rewrite (run_client_fails _ _ _ _ _ _ _ _ _ _ _ _ Hsplit Hload Hconfig Hclient).
       subst t1. eexists.
       exists (more1 ++ [PlatformConfigAuto; NewSynchronousFlyteClient])%list.
       rewrite app_assoc. split; [reflexivity|].
       apply Forall_app. split; [exact HP1|]. repeat constructor. }
  rewrite (run_from_resolution _ _ project domain destination_dir image_config
             _ _ _ _ _ Hsplit Hload Hconfig Hclient).
  assert (Hparses :
    logs before_hashing
      (_parse_workflow_inputs click_ctx wf_entity
         (create_upload_location "flytesnacks" "development" None))).
  { apply logs_parse_workflow_inputs; [|intros; exact I].
    apply logs_call. reflexivity. }
  destruct (_parse_workflow_inputs click_ctx wf_entity _ _) as [[inputs_|e] t2] eqn:Hparse;
    destruct (logs_inv _ _ _ _ _ Hparses Hparse) as (more2 & Ht2 & HP2).
  - right. exists filename, workflow_name, wf_entity, t1, inputs_, t2.
    repeat (split; [reflexivity || assumption|]).
    destruct (hash_script_file t2 filename) as [version|e].
    + destruct (run_from_archive_requests wf_entity inputs_ version project domain
                  destination_dir image_config (t2 ++ [HashScriptFile filename])%list)
        as (tail & -> & _).
      eexists. rewrite <- app_assoc. reflexivity.
    + eexists. reflexivity.
  - left. subst t1 t2. eexists.
    exists (more1 ++ [PlatformConfigAuto; NewSynchronousFlyteClient] ++ more2)%list.
    rewrite !app_assoc. split; [reflexivity|].
    rewrite <- !app_assoc. apply Forall_app. split; [exact HP1|].
    apply Forall_app. split; [repeat constructor|exact HP2].
Qed.

(** X11: the module of a script.  For a positional argument
    [stem.ext:workflow] whose stem has no dot and does not end with a
    separator, [run] first imports the module named by the stem with its
    separators turned into dots, and when the import succeeds it next loads
    the object [module.workflow]. *)
Theorem run_imports_the_module_of_the_script click_ctx stem ext workflow_name remote
    project domain destination_dir image_config t :
  count "." stem = 0%nat ->
  rfind "/" stem + 1 < Z.of_nat (String.length stem) ->
  count "." ext = 0%nat -> count "/" ext = 0%nat ->
  count ":" stem = 0%nat -> count ":" ext = 0%nat -> count ":" workflow_name = 0%nat ->
  let filename := stem +:+ "." +:+ ext in
  let module := replace "/" "." stem in
  exists tail,
    (run click_ctx (filename +:+ ":" +:+ workflow_name) remote project domain
       destination_dir image_config t).2
    = (t ++ ImportModule module :: tail)%list
    /\ (import_module t module = Ok tt ->
        exists tail',
          tail = LoadObjectFromModule (module +:+ "." +:+ workflow_name) :: tail').
Proof.
  intros Hstem Hlast Hext Hsep Hcs Hce Hcw filename module.
  assert (Hsplit : split ":" (filename +:+ ":" +:+ workflow_name)
                   = [filename; workflow_name]).
  { apply split_at_separator; [|exact Hcw]. unfold filename.
    rewrite !count_app, Hcs, Hce. reflexivity. }
  unfold run. rewrite Hsplit. cbn zeta.
  unfold filename at 1. rewrite (splitext_stem stem ext Hstem Hlast Hext Hsep).
  cbn [fst]. fold module.
  match goal with
  | |- context [bind (_load_naive_entity _ _) ?k] =>
      assert (Hrest : forall wf_entity, logs (fun _ => True) (k wf_entity))
  end.
  { intros wf_entity. unfold create_upload_location.
    repeat (logs_step; auto using logs_parse_workflow_inputs, logs_call). }
  rewrite bind_eq. unfold _load_naive_entity. rewrite bind_eq. unfold call at 1.
  destruct (import_module t module) as [[]|e].
  - unfold call.
    destruct (load_object_from_module _ _) as [wf_entity|e].
    + destruct (Hrest wf_entity
                  ((t ++ [ImportModule module])
                   ++ [LoadObjectFromModule (module +:+ "." +:+ workflow_name)])%list)
        as (more & Hmore & _).
      exists (LoadObjectFromModule (module +:+ "." +:+ workflow_name) :: more).
      split; [|intros _; eexists; reflexivity].
      etransitivity; [exact Hmore|]. rewrite <- !app_assoc. reflexivity.
    + eexists. split; [simpl; rewrite <- !app_assoc; reflexivity|].
      intros _. eexists. reflexivity.
  - exists []. split; [reflexivity|]. discriminate.
Qed.

End CommandFurther.

(** ** The further properties at work on concrete runs *)

Section FurtherInstances.
Import Fixture.

Local Abbreviation upload_call := (CreateUploadLocation "flytesnacks" "development" None).

Lemma flaky_factory_logs t0 : (Flaky.upload_factory t0).2 = (t0 ++ [upload_call])%list.
Proof. reflexivity. Qed.

Lemma resolved_keys_witness :
  let tokens := ["--df"; "a.csv"; "--count"; "1"; "--df"; "b.csv"] in
  let a : gmap string py_value :=
    <["df" := VStructuredDataset {| uri := "s3://bucket/flytesnacks/development/2" |}]>
      (<["count" := VInt 1]> ∅) in
  Nat.even (List.length tokens) = true
  /\ dom a = list_to_set (provided_names tokens)
  /\ dom a ⊆ dom (inputs (interface wf)).
Proof.
  intros tokens a.
  apply (resolved_keys_are_provided_names wf upload_factory tokens [] a
           [upload_call; PutData "a.csv" "https://signed/flytesnacks/development/0";
            upload_call; PutData "b.csv" "https://signed/flytesnacks/development/2"]).
  vm_compute. reflexivity.
Defined.

Lemma resolved_values_witness :
  exists var,
    inputs (interface wf) !! "count" = Some var
    /\ guess_python_type (type var) = Ok (type_of_value (VInt 1)).
Proof.
  apply (resolved_values_have_declared_type wf upload_factory
           ["--df"; "a.csv"; "--count"; "1"] []
           (<["df" := VStructuredDataset {| uri := "s3://bucket/flytesnacks/development/0" |}]>
              (<["count" := VInt 1]> ∅))
           [upload_call; PutData "a.csv" "https://signed/flytesnacks/development/0"]
           "count" (VInt 1)).
  - vm_compute. reflexivity.
  - vm_compute. reflexivity.
Defined.

Lemma resolve_concatenation_witness :
  let pre := ["--count"; "1"; "--df"; "a.csv"] in
  let rest := ["--count"; "2"; "--label"; "x"] in
  _parse_workflow_inputs {| args := pre ++ rest |} wf upload_factory []
  = match _parse_workflow_inputs {| args := pre |} wf upload_factory [] with
    | (Ok m1, t1) =>
        match _parse_workflow_inputs {| args := rest |} wf upload_factory t1 with
        | (Ok m2, t2) => (Ok (m2 ∪ m1), t2)
        | (Raise e, t2) => (Raise e, t2)
        end
    | (Raise e, t1) => (Raise e, t1)
    end.
Proof.
  intros pre rest.
  apply (resolve_concatenation wf upload_factory pre rest []).
  reflexivity.
Defined.

Example concatenation_overrides :
  resolve ["--count"; "1"; "--df"; "a.csv"; "--count"; "2"; "--label"; "x"]
  = (Ok (<["count" := VInt 2]>
           (<["label" := VStr "x"]>
              (<["df" := VStructuredDataset
                           {| uri := "s3://bucket/flytesnacks/development/0" |}]> ∅))),
     [upload_call; PutData "a.csv" "https://signed/flytesnacks/development/0"]).
Proof. vm_compute. reflexivity. Qed.

Example flaky_transfer_fails :
  Flaky.resolve ["--df"; "a.csv"; "--df"; "missing.csv"; "--df"; "c.csv"]
  = (Raise (CollaboratorError "no such file"),
     [upload_call; PutData "a.csv" "https://signed/flytesnacks/development/0";
      upload_call; PutData "missing.csv" "https://signed/flytesnacks/development/2"]).
Proof. vm_compute. reflexivity. Qed.

Example flaky_quota_exceeded :
  Flaky.resolve ["--df"; "a.csv"; "--df"; "b.csv"; "--df"; "c.csv"; "--count"; "1"]
  = (Raise (CollaboratorError "quota exceeded"),
     [upload_call; PutData "a.csv" "https://signed/flytesnacks/development/0";
      upload_call; PutData "b.csv" "https://signed/flytesnacks/development/2";
      upload_call]).
Proof. vm_compute. reflexivity. Qed.

Lemma uploads_not_rolled_back_witness :
  let tokens := ["--df"; "a.csv"; "--df"; "missing.csv"; "--df"; "c.csv"] in
  exists done locations unfinished,
    done `prefix_of` structured_arguments wf tokens
    /\ List.length locations = List.length done
    /\ (Flaky.resolve tokens).2
       = ([] ++ upload_events upload_call done locations ++ unfinished)%list
    /\ (unfinished = [] \/ unfinished = [upload_call]
        \/ exists local_path remote_path,
             unfinished = [upload_call; PutData local_path remote_path]).
Proof.
  intros tokens.
  apply (@uploads_are_not_rolled_back _ Flaky.collaborators wf Flaky.upload_factory
           upload_call tokens []).
  exact flaky_factory_logs.
Defined.

Lemma collaborator_failure_witness :
  Flaky.resolve (["--df"; "a.csv"; "--df"; "b.csv"] ++ ["--df"; "c.csv"; "--count"; "1"])
  = (Raise (CollaboratorError "quota exceeded"),
     ([upload_call; PutData "a.csv" "https://signed/flytesnacks/development/0";
       upload_call; PutData "b.csv" "https://signed/flytesnacks/development/2"]
      ++ [upload_call])%list)
  /\ Flaky.resolve ([] ++ ["--df"; "missing.csv"; "--count"; "1"])
     = (Raise (CollaboratorError "no such file"),
        ([] ++ [upload_call;
                PutData "missing.csv"
                  (signed_url (location [] "flytesnacks" "development" None))])%list).
Proof.
  split.
  - apply (@collaborator_failure_propagates _ Flaky.collaborators wf Flaky.upload_factory
             upload_call ["--df"; "a.csv"; "--df"; "b.csv"] "--df" "c.csv" ["--count"; "1"]
             (<["df" := VStructuredDataset
                          {| uri := "s3://bucket/flytesnacks/development/2" |}]> ∅)
             [] _ (var STRUCTURED_DATASET) (CollaboratorError "quota exceeded")).
    + exact flaky_factory_logs.
    + reflexivity.
    + vm_compute. reflexivity.
    + vm_compute. reflexivity.
    + reflexivity.
    + vm_compute. reflexivity.
  - apply (@collaborator_failure_propagates _ Flaky.collaborators wf Flaky.upload_factory
             upload_call [] "--df" "missing.csv" ["--count"; "1"] ∅ [] []
             (var STRUCTURED_DATASET) (CollaboratorError "no such file")).
    + exact flaky_factory_logs.
    + reflexivity.
    + vm_compute. reflexivity.
    + vm_compute. reflexivity.
    + reflexivity.
    + vm_compute. reflexivity.
    + vm_compute. reflexivity.
Defined.

Lemma flag_prefix_witness :
  _parse_workflow_inputs {| args := tokens_of [("--count", "42"); ("--label", "x")] |} wf
    upload_factory []
  = _parse_workflow_inputs {| args := tokens_of [("xxcount", "42"); ("-llabel", "x")] |} wf
      upload_factory [].
Proof.
  apply (flag_prefix_is_not_inspected wf upload_factory).
  repeat constructor.
Defined.

Example any_two_characters :
  resolve ["xxcount"; "42"; "-llabel"; "x"]
  = (Ok (<["count" := VInt 42]> (<["label" := VStr "x"]> ∅)), [])
  /\ resolve ["count"; "42"] = (Raise (KeyError "unt"), [])
  /\ resolve ["-c"; "42"] = (Raise (KeyError ""), []).
Proof. repeat split; vm_compute; reflexivity. Qed.

Lemma order_is_irrelevant_witness :
  let ps := [("--count", "1"); ("--label", "x")] in
  let ps' := [("--label", "x"); ("--count", "1")] in
  exists m,
    _parse_workflow_inputs {| args := tokens_of ps |} wf upload_factory [] = (Ok m, [])
    /\ _parse_workflow_inputs {| args := tokens_of ps' |} wf upload_factory [] = (Ok m, []).
Proof.
  intros ps ps'.
  apply (text_and_integer_order_is_irrelevant wf upload_factory ps ps' []).
  - apply perm_swap.
  - apply (bool_decide_unpack _). vm_compute. exact I.
  - unfold text_or_integer, ps. cbn [tokens_of flat_map app fst snd pairs].
    repeat (apply Forall_cons; split); try (apply Forall_nil; exact I); vm_compute; auto.
  - unfold integers_readable, ps. cbn [tokens_of flat_map app fst snd pairs].
    repeat (apply Forall_cons; split); try (apply Forall_nil; exact I);
      intros Hint; cbn [fst snd] in *;
      first [ vm_compute; eauto; fail | vm_compute in Hint; discriminate ].
Defined.

Lemma decimal_integer_witness :
  _parse_workflow_inputs {| args := ["--label"; "x"] ++ ["--count"; "007"] |} wf
    upload_factory []
  = (Ok (<[slice_from 2 "--count" := VInt (decimal_value "007")]>
           (<["label" := VStr "x"]> ∅)), [])
  /\ _parse_workflow_inputs {| args := ["--label"; "x"] ++ ["--count"; "-" +:+ "007"] |} wf
       upload_factory []
     = (Ok (<[slice_from 2 "--count" := VInt (- decimal_value "007")]>
              (<["label" := VStr "x"]> ∅)), []).
Proof.
  apply (decimal_integer_argument wf upload_factory ["--label"; "x"] "--count" "007"
           (<["label" := VStr "x"]> ∅) [] [] (var INTEGER)).
  - reflexivity.
  - vm_compute. reflexivity.
  - vm_compute. reflexivity.
  - reflexivity.
  - discriminate.
  - reflexivity.
  - vm_compute. reflexivity.
Defined.

Example decimal_values : decimal_value "007" = 7 /\ decimal_value "1234567890" = 1234567890.
Proof. split; reflexivity. Qed.

Lemma successful_remote_run_witness :
  let click_ctx := {| args := ["--df"; "a.csv"; "--count"; "2"] |} in
  exists filename workflow_name wf_entity inputs_ resolution version location wf execution,
    let module := replace "/" "." (splitext filename).1 in
    let object_name := module +:+ "." +:+ workflow_name in
    let loaded :=
      [ImportModule module; LoadObjectFromModule object_name;
       PlatformConfigAuto; NewSynchronousFlyteClient] in
    let resolved := ([] ++ loaded ++ resolution)%list in
    let suffix := Some ("scriptmode-" +:+ version +:+ ".tar.gz") in
    let settings :=
      {| image_config := Some ["img"];
         fast_serialization_settings :=
           Some {| enabled := true;
                   destination_dir := "/root";
                   distribution_location := native_url location |} |} in
    split ":" "dir/script.py:my_workflow" = [filename; workflow_name]
    /\ import_module [] module = Ok tt
    /\ load_object_from_module ([] ++ [ImportModule module])%list object_name
       = Ok wf_entity
    /\ platform_config_auto
         ([] ++ [ImportModule module; LoadObjectFromModule object_name])%list = Ok tt
    /\ new_synchronous_flyte_client
         ([] ++ [ImportModule module; LoadObjectFromModule object_name;
                 PlatformConfigAuto])%list = Ok tt
    /\ _parse_workflow_inputs click_ctx wf_entity
         (create_upload_location "flytesnacks" "development" None) ([] ++ loaded)%list
       = (Ok inputs_, resolved)
    /\ hash_script_file resolved filename = Ok version
    /\ client_create_upload_location (resolved ++ [HashScriptFile filename])%list
         "myproject" "staging" suffix = Ok location
    /\ config_auto
         (resolved ++ [HashScriptFile filename;
                       CreateUploadLocation "myproject" "staging" suffix])%list = Ok tt
    /\ new_flyte_remote
         (resolved ++ [HashScriptFile filename;
                       CreateUploadLocation "myproject" "staging" suffix;
                       ConfigAuto])%list
         "myproject" "staging" = Ok tt
    /\ register_workflow_script_mode
         (resolved ++ [HashScriptFile filename;
                       CreateUploadLocation "myproject" "staging" suffix; ConfigAuto;
                       NewFlyteRemote "myproject" "staging"])%list
         (name wf_entity) settings version (signed_url location) = Ok wf
    /\ execute
         (resolved ++ [HashScriptFile filename;
                       CreateUploadLocation "myproject" "staging" suffix; ConfigAuto;
                       NewFlyteRemote "myproject" "staging";
                       RegisterWorkflowScriptMode (name wf_entity) settings version
                         (signed_url location)])%list
         wf inputs_ "myproject" "staging" true = Ok execution
    /\ (run click_ctx "dir/script.py:my_workflow" true "myproject" "staging" "/root"
          ["img"] []).2
       = (resolved
            ++ [HashScriptFile filename;
                CreateUploadLocation "myproject" "staging" suffix;
                ConfigAuto;
                NewFlyteRemote "myproject" "staging";
                RegisterWorkflowScriptMode (name wf_entity) settings version
                  (signed_url location);
                Execute wf inputs_ "myproject" "staging" true;
                PrintOut execution])%list.
Proof.
  intros click_ctx.
  apply (successful_remote_run click_ctx "dir/script.py:my_workflow" "myproject" "staging"
           "/root" ["img"] []).
  vm_compute. reflexivity.
Defined.

Lemma module_of_the_script_witness :
  exists tail,
    (run {| args := [] |} (("dir/sub/script" +:+ "." +:+ "py") +:+ ":" +:+ "my_workflow")
       true "p" "d" "/root" [] []).2
    = ([] ++ ImportModule (replace "/" "." "dir/sub/script") :: tail)%list
    /\ (import_module [] (replace "/" "." "dir/sub/script") = Ok tt ->
        exists tail',
          tail = LoadObjectFromModule
                   (replace "/" "." "dir/sub/script" +:+ "." +:+ "my_workflow") :: tail').
Proof.
  apply (run_imports_the_module_of_the_script {| args := [] |} "dir/sub/script" "py"
           "my_workflow" true "p" "d" "/root" [] []);
    reflexivity.
Defined.

Example module_names :
  replace "/" "." (splitext "dir/sub/script.py").1 = "dir.sub.script"
  /\ replace "/" "." (splitext "./script.py").1 = "..script"
  /\ replace "/" "." (splitext "dir/.py").1 = "dir..py".
Proof. repeat split; reflexivity. Qed.

End FurtherInstances.
